(** * Admin routes of the portfolio backend: profile update, uploads,
      education and experience records

    Shallow embedding of [routes/admin/admin.js].

    The handlers are written as functions on an explicit [world]: the files
    present under the service root and the four Mongoose collections.
    JavaScript strings are [string], a sequence of 8-bit code units; a
    value that may be [undefined] or [null] is an [option]; JavaScript
    truthiness is written out.

    The world records the regular files and the directories below the
    service root: a write into a directory that does not exist fails, and
    unlinking a directory throws. A save to the database is taken to
    succeed; identifiers of callers are strings. The schemas of the
    education and experience models are parameters. *)

From Stdlib Require Import Ascii ZArith.
From stdpp Require Import gmap strings list fin_maps pretty.

#[local] Set Warnings "-register-all,-clear-no-such-hyp".

(** ** JavaScript values and truthiness *)

(** Values of a parsed JSON body. Numbers are carried as integers (the
    years of an education entry); truthiness of a number is its being
    non-zero. *)
Inductive value : Type :=
  | VNull
  | VBool (b : bool)
  | VNum (n : Z)
  | VStr (s : string)
  | VArr (l : list value)
  | VObj (o : gmap string value).

(** [!s] is false exactly for a non-empty string. *)
Definition nonempty (s : string) : bool :=
  match s with
  | EmptyString => false
  | String _ _ => true
  end.

(** Truthiness of a text field that may be absent. *)
Definition truthy (o : option string) : bool :=
  match o with
  | Some s => nonempty s
  | None => false
  end.

(** [a || b] on text fields. *)
Definition js_or (a b : option string) : option string :=
  if truthy a then a else b.

(** Truthiness of a property read, [undefined] when the key is absent. *)
Definition value_truthy (v : value) : bool :=
  match v with
  | VNull => false
  | VBool b => b
  | VNum n => negb (n =? 0)%Z
  | VStr s => nonempty s
  | VArr _ => true
  | VObj _ => true
  end.

Definition prop_truthy (o : gmap string value) (k : string) : bool :=
  match o !! k with
  | Some v => value_truthy v
  | None => false
  end.

(** ** Paths below the service root

    [path.join] normalises its result: empty and [.] segments vanish and a
    [..] segment cancels the segment before it. The process runs with the
    service root (the directory [__dirname/../../]) as its working
    directory, so a location is written as the normalised path relative to
    that root; a path that climbs above the root keeps its leading [..]
    segments. *)

Fixpoint split_slash (cur s : string) : list string :=
  match s with
  | EmptyString => [cur]
  | String c r =>
      if Ascii.eqb c "/"%char
      then cur :: split_slash "" r
      else split_slash (cur +:+ String c "") r
  end.

(** One segment against the stack of segments kept so far (innermost first). *)
Definition push_segment (stack : list string) (seg : string) : list string :=
  if bool_decide (seg = "" ∨ seg = ".") then stack
  else if bool_decide (seg = "..") then
    match stack with
    | top :: rest => if bool_decide (top = "..") then seg :: stack else rest
    | [] => [seg]
    end
  else seg :: stack.

Fixpoint join_slash (segs : list string) : string :=
  match segs with
  | [] => ""
  | [seg] => seg
  | seg :: rest => seg +:+ "/" +:+ join_slash rest
  end.

Fixpoint ends_with_slash (s : string) : bool :=
  match s with
  | EmptyString => false
  | String c EmptyString => Ascii.eqb c "/"%char
  | String _ r => ends_with_slash r
  end.

(** A trailing separator survives normalisation, as in Node. *)
Definition normalize (p : string) : string :=
  let body := join_slash (rev (fold_left push_segment (split_slash "" p) [])) in
  if ends_with_slash p && nonempty body then body +:+ "/" else body.

(** ** File Classifier & Store: [multer.diskStorage] *)

(** An uploaded part as multer hands it to the storage callbacks, with the
    value [Date.now()] has when [filename] runs for it. *)
Record file := {
  mimetype : string;
  originalname : string;
  now : N
}.

Definition destination (f : file) : string :=
  let type := mimetype f in
  if String.prefix "image/" type then "uploads/images"
  else if String.eqb type "application/pdf" then "uploads/pdfs"
  else if String.prefix "video/" type then "uploads/videos"
  else "uploads/others".

(** The characters [\s] matches among 8-bit code units. *)
Definition is_space (c : ascii) : bool :=
  match c with
  | "009" | "010" | "011" | "012" | "013" | " " | "160" => true
  | _ => false
  end%char.

(** [s.replace(/\s+/g, "_")]: the scanner emits one underscore when it
    enters a run of white space and nothing for the rest of the run. *)
Fixpoint replace_ws (in_run : bool) (s : string) : string :=
  match s with
  | EmptyString => ""
  | String c r =>
      if is_space c
      then (if in_run then replace_ws true r else String "_" (replace_ws true r))
      else String c (replace_ws false r)
  end.

Definition filename (f : file) : string :=
  let safeName := replace_ws false (originalname f) in
  pretty (now f) +:+ "-" +:+ safeName.

(** Where the disk storage writes the part: [path.join(destination, filename)]. *)
Definition stored_at (f : file) : string :=
  normalize (destination f +:+ "/" +:+ filename f).

(** ** Data model *)

(** A text field of a document or of a multipart body: absent ([undefined]
    or [null]) or a string. *)
Module Profile.
Record t := {
  userId : string;
  name : string;
  profilePic : option string;
  profilePic2 : option string;
  pdf : option string;
  video : option string;
  aboutText : option string
}.
End Profile.

Module User.
Record t := {
  email : option string;
  name : option string;
  phoneNumber : option string;
  degree : option string;
  birthday : option string;
  address : option string;
  experience : option string
}.
End User.

(** A stored education or experience document: the identifier Mongoose
    generates and the fields. *)
Record doc := {
  doc_id : nat;
  doc_fields : gmap string value
}.

(** Modelled from the spec: the schemas of [models/Profile] and
    [models/User] are not among the sources. A profile is unique per owner,
    so [Profile.findOne({ userId })] is a lookup by owner id;
    [User.findById] is a lookup by id. [fs] holds the locations of the
    regular files present below the service root, [dirs] those of the
    directories. *)
Record world := {
  fs : gset string;
  dirs : gset string;
  Profiles : gmap string Profile.t;
  Users : gmap string User.t;
  Educations : list doc;
  Experiences : list doc;
  next_id : nat
}.

Definition set_fs (w : world) (files : gset string) : world :=
  {| fs := files; dirs := dirs w; Profiles := Profiles w; Users := Users w;
     Educations := Educations w; Experiences := Experiences w;
     next_id := next_id w |}.

Definition set_dirs (w : world) (folders : gset string) : world :=
  {| fs := fs w; dirs := folders; Profiles := Profiles w; Users := Users w;
     Educations := Educations w; Experiences := Experiences w;
     next_id := next_id w |}.

Definition set_Profiles (w : world) (ps : gmap string Profile.t) : world :=
  {| fs := fs w; dirs := dirs w; Profiles := ps; Users := Users w;
     Educations := Educations w; Experiences := Experiences w;
     next_id := next_id w |}.

Definition set_Users (w : world) (us : gmap string User.t) : world :=
  {| fs := fs w; dirs := dirs w; Profiles := Profiles w; Users := us;
     Educations := Educations w; Experiences := Experiences w;
     next_id := next_id w |}.

(** ** Responses *)

(** The JSON bodies the routes answer with. The text of a caught
    exception is not modelled: [ServerError] stands for every 500 body. *)
Inductive reply : Type :=
  | Message (message : string)
  | ServerError
  | Error (error : string)
  | Saved (message : string) (data : Profile.t)
  | Docs (l : list doc).

Record response := {
  status : nat;
  json : reply
}.

Definition server_error : response := {| status := 500; json := ServerError |}.

(** [try { ... } catch (err) { res.status(500)... }] around a step that may
    throw ([None]): the handler ends with 500 in the world reached so far,
    or goes on in the world the step leaves. *)
Definition catch (step : option world) (w : world)
    (next : world → response * world) : response * world :=
  match step with
  | Some w' => next w'
  | None => (server_error, w)
  end.

(** ** The file system calls *)

(** A path without its trailing separator: [p/] names the directory [p]. *)
Fixpoint trim_slash (s : string) : string :=
  match s with
  | EmptyString => ""
  | String c EmptyString => if Ascii.eqb c "/"%char then "" else s
  | String c r => String c (trim_slash r)
  end.

Definition is_directory (p : string) (w : world) : bool :=
  bool_decide (trim_slash p ∈ dirs w).

(** [fs.existsSync(p)]: a regular file or a directory is there. *)
Definition existsSync (p : string) (w : world) : bool :=
  bool_decide (p ∈ fs w) || is_directory p w.

(** [fs.unlinkSync(p)] on a path that exists: a regular file is removed,
    on a directory the call throws ([None]). *)
Definition unlinkSync (p : string) (w : world) : option world :=
  if is_directory p w then None else Some (set_fs w (fs w ∖ {[p]})).

(** The folders of a path, outermost first: [a], [a/b], [a/b/c]. *)
Fixpoint prefixes_from (above : string) (segs : list string) : list string :=
  match segs with
  | [] => []
  | seg :: rest =>
      let here := if nonempty above then above +:+ "/" +:+ seg else seg in
      here :: prefixes_from here rest
  end.

(** [fs.mkdirSync(folder, { recursive: true })]: the folder and the missing
    folders above it are created; the call throws ([None]) when a regular
    file is in the way. *)
Definition mkdirSync (folder : string) (w : world) : option world :=
  let chain := prefixes_from "" (split_slash "" folder) in
  if existsb (λ a, bool_decide (a ∈ fs w)) chain then None
  else Some (set_dirs w (list_to_set chain ∪ dirs w)).

(** ** Start-up: "Ensure folders exist" *)

Definition folders : list string :=
  ["uploads/images"; "uploads/pdfs"; "uploads/videos"].

Definition ensure_folders (w : world) : option world :=
  fold_left
    (λ (reached : option world) folder,
       w ← reached;
       if negb (existsSync folder w) then mkdirSync folder w else Some w)
    folders (Some w).

(** ** Stale-File Reclaimer *)

Definition deleteOldFile (filePath : option string) (w : world) : option world :=
  match filePath with
  | None => Some w
  | Some p =>
      if negb (nonempty p) then Some w
      else
        let fullPath := normalize p in
        if existsSync fullPath w then unlinkSync fullPath w else Some w
  end.

(** ** POST /update-profile *)

(** The request as the handler sees it: the caller id the authentication
    middleware resolved ([req.user?.id]), the text fields of the multipart
    body, each sent at most once, and at most one uploaded part per slot. *)
Module Req.
Record t := {
  user : option string;
  name : option string;
  phoneNumber : option string;
  degree : option string;
  birthday : option string;
  address : option string;
  experience : option string;
  aboutText : option string;
  profilePic : option file;
  profilePic2 : option file;
  resumePdf : option file;
  video : option file
}.
End Req.

(** The folder a path lies in: [path.dirname] on a normalised path. *)
Definition dirname (p : string) : string :=
  join_slash (removelast (split_slash "" p)).

(** The disk storage opens [path.join(destination, filename)] for
    writing. That fails when the folder the path lies in does not exist
    (for a name without a slash that folder is the bucket), or when a
    folder bears the name of the file. *)
Definition writable (f : file) (w : world) : bool :=
  bool_decide (dirname (stored_at f) ∈ dirs w) &&
  negb (is_directory (stored_at f) w).

Definition store (slot : option file) (w : world) : option world :=
  match slot with
  | Some f =>
      if writable f w then Some (set_fs w ({[stored_at f]} ∪ fs w)) else None
  | None => Some w
  end.

(** [upload.fields([...])]: every part present is written by the disk
    storage before the handler runs; the set of files that results does
    not depend on the order of the parts. When a part cannot be written
    ([None]) multer removes the parts of the request it had written and
    passes the error on, so that the handler does not run and the disk is
    as before the request. (The file store is a set of paths: a part
    written over an earlier file of the same generated name, which takes
    the same millisecond and the same sanitised name, is not told apart
    from that file.) *)
Definition upload_fields (req : Req.t) (w : world) : option world :=
  w ← store (Req.profilePic req) w;
  w ← store (Req.profilePic2 req) w;
  w ← store (Req.resumePdf req) w;
  store (Req.video req) w.

(** [req.files[slot]?.[0]?.filename || null] *)
Definition uploaded (slot : option file) : option string :=
  js_or (filename <$> slot) None.

(** [x ? `${prefix}${x}` : otherwise] *)
Definition path_or (prefix : string) (x otherwise : option string)
  : option string :=
  match x with
  | Some f => if nonempty f then Some (prefix +:+ f) else otherwise
  | None => otherwise
  end.

(** [if (x && old) deleteOldFile(old)] *)
Definition reclaim (x old : option string) (w : world) : option world :=
  if truthy x && truthy old then deleteOldFile old w else Some w.

Definition update_user (req : Req.t) (name : string) (user : User.t) : User.t :=
  {| User.email := User.email user;
     User.name := js_or (Some name) (User.name user);
     User.phoneNumber := js_or (Req.phoneNumber req) (User.phoneNumber user);
     User.degree := js_or (Req.degree req) (User.degree user);
     User.birthday := js_or (Req.birthday req) (User.birthday user);
     User.address := js_or (Req.address req) (User.address user);
     User.experience := js_or (Req.experience req) (User.experience user) |}.

Definition update_profile (req : Req.t) (w : world) : response * world :=
  match js_or (Req.user req) None with
  | None =>
      ({| status := 401; json := Message "Unauthorized: Missing user ID" |}, w)
  | Some userId =>
      match js_or (Req.name req) None with
      | None => ({| status := 400; json := Message "Name is required" |}, w)
      | Some name =>
          let profilePic := uploaded (Req.profilePic req) in
          let profilePic2 := uploaded (Req.profilePic2 req) in
          let resumePdf := uploaded (Req.resumePdf req) in
          let video := uploaded (Req.video req) in
          let user := Users w !! userId in
          (* "Update user model details", then the answer *)
          let respond (profile : Profile.t) (w : world) : response * world :=
            let w :=
              match user with
              | Some user =>
                  set_Users w (<[userId := update_user req name user]> (Users w))
              | None => w
              end in
            ({| status := 200;
                json := Saved "Profile saved successfully" profile |}, w) in
          match Profiles w !! userId with
          | Some profile =>
              catch (reclaim profilePic (Profile.profilePic profile) w) w (λ w,
              catch (reclaim profilePic2 (Profile.profilePic2 profile) w) w (λ w,
              catch (reclaim resumePdf (Profile.pdf profile) w) w (λ w,
              catch (reclaim video (Profile.video profile) w) w (λ w,
                let profile :=
                  {| Profile.userId := Profile.userId profile;
                     Profile.name := name;
                     Profile.profilePic :=
                       path_or "/uploads/images/" profilePic (Profile.profilePic profile);
                     Profile.profilePic2 :=
                       path_or "/uploads/images/" profilePic2 (Profile.profilePic2 profile);
                     Profile.pdf :=
                       path_or "/uploads/pdfs/" resumePdf (Profile.pdf profile);
                     Profile.video :=
                       path_or "/uploads/videos/" video (Profile.video profile);
                     Profile.aboutText :=
                       js_or (Req.aboutText req) (Profile.aboutText profile) |} in
                respond profile
                  (set_Profiles w (<[userId := profile]> (Profiles w)))))))
          | None =>
              let profile :=
                {| Profile.userId := userId;
                   Profile.name := name;
                   Profile.profilePic := path_or "/uploads/images/" profilePic None;
                   Profile.profilePic2 := path_or "/uploads/images/" profilePic2 None;
                   Profile.pdf := path_or "/uploads/pdfs/" resumePdf None;
                   Profile.video := path_or "/uploads/videos/" video None;
                   Profile.aboutText := Req.aboutText req |} in
              respond profile (set_Profiles w (<[userId := profile]> (Profiles w)))
          end
      end
  end.

(** The route: the upload middleware, then the handler. When the upload
    fails the handler does not run: the error goes to the error handler of
    the framework, which answers 500, and the world is as it was. *)
Definition post_update_profile (req : Req.t) (w : world) : response * world :=
  match upload_fields req w with
  | Some stored => update_profile req stored
  | None => (server_error, w)
  end.

(** ** POST /add-education, POST /add-experience and the listings *)

(** [{...entry}]: the own enumerable properties of a value. *)
Definition spread (entry : value) : gmap string value :=
  match entry with
  | VObj o => o
  | VArr l => list_to_map (imap (λ i x, (pretty i, x)) l)
  | VStr s =>
      list_to_map
        (imap (λ i c, (pretty i, VStr (String c ""))) (String.list_ascii_of_string s))
  | _ => ∅
  end.

(** [{...entry, userId}] *)
Definition with_user (userId : string) (entry : value) : gmap string value :=
  <["userId" := VStr userId]> (spread entry).

(** Normalisation of the body to an array. *)
Definition to_array (newData : value) : option (list value) :=
  match newData with
  | VArr l => Some l
  | VObj _ => Some [newData]
  | _ => None
  end.

Definition owned_by (userId : string) (d : doc) : bool :=
  match doc_fields d !! "userId" with
  | Some (VStr s) => String.eqb s userId
  | _ => false
  end.

(** [Model.deleteMany({ userId })] *)
Definition deleteMany (userId : string) (coll : list doc) : list doc :=
  filter (λ d, owned_by userId d = false) coll.

(** [Model.insertMany(docs)]: every document is cast and validated against
    the schema first; if one is refused nothing is inserted and the call
    throws. The accepted documents get fresh identifiers. *)
Definition insertMany (schema : gmap string value → option (gmap string value))
    (docs : list (gmap string value)) (next : nat) : option (list doc) :=
  imap (λ i fields, {| doc_id := next + i; doc_fields := fields |})
    <$> mapM schema docs.

(** The check of the validation loop on one stamped entry: every required
    property is truthy. *)
Definition complete (required : list string) (e : gmap string value) : bool :=
  forallb (prop_truthy e) required.

Definition education_fields : list string :=
  ["degreeName"; "collegeName"; "fromYear"; "toYear"].

Definition experience_fields : list string :=
  ["designation"; "companyName"; "fromTime"; "toTime"].

(** The body of both handlers, over the collection it works on. *)
Definition add_records
    (schema : gmap string value → option (gmap string value))
    (required : list string) (format_error required_error : string)
    (user : option string) (newData : value) (coll : list doc) (next : nat)
  : response * list doc * nat :=
  match to_array newData with
  | None => ({| status := 400; json := Error format_error |}, coll, next)
  | Some newData =>
      match user with
      | None => ({| status := 500; json := ServerError |}, coll, next)
      | Some userId =>
          let withUser := with_user userId <$> newData in
          if forallb (complete required) withUser then
            let kept := deleteMany userId coll in
            match insertMany schema withUser next with
            | Some inserted =>
                ({| status := 200; json := Docs inserted |},
                 kept ++ inserted, next + length inserted)
            | None => ({| status := 500; json := ServerError |}, kept, next)
            end
          else ({| status := 400; json := Error required_error |}, coll, next)
      end
  end.

(** A JSON request: the caller the authentication middleware attached
    ([req.user], absent when none was resolved) and the parsed body. *)
Record json_request := {
  req_user : option string;
  req_body : value
}.

Section Schemas.

(** The schemas of [models/Education] and [models/Experience] are not
    among the sources: what each stores for a document, or its refusal. *)
Variable EducationSchema : gmap string value → option (gmap string value).
Variable ExperienceSchema : gmap string value → option (gmap string value).

Definition add_education (req : json_request) (w : world) : response * world :=
  let '(res, coll, next) :=
    add_records EducationSchema education_fields
      "Invalid education data format"
      "Each education object must include degreeName, collegeName, fromYear, and toYear"
      (req_user req) (req_body req) (Educations w) (next_id w) in
  (res, {| fs := fs w; dirs := dirs w; Profiles := Profiles w; Users := Users w;
           Educations := coll; Experiences := Experiences w;
           next_id := next |}).

Definition add_experience (req : json_request) (w : world) : response * world :=
  let '(res, coll, next) :=
    add_records ExperienceSchema experience_fields
      "Invalid Experience data format"
      "Each Experience object must include Disignation, Company Name and Time."
      (req_user req) (req_body req) (Experiences w) (next_id w) in
  (res, {| fs := fs w; dirs := dirs w; Profiles := Profiles w; Users := Users w;
           Educations := Educations w; Experiences := coll;
           next_id := next |}).

End Schemas.

Definition get_education (w : world) : response :=
  {| status := 200; json := Docs (Educations w) |}.

Definition get_experience (w : world) : response :=
  {| status := 200; json := Docs (Experiences w) |}.

(** ** Definitions used by the statements

    The words of the specification, the sets the statements speak about
    and the sample data of the worked instances. *)

(** The white-space runs of a name, in the words of the specification: the
    name is cut into its maximal runs of white space and of other
    characters, each tagged with its kind ... *)
Fixpoint runs (s : string) : list (bool * string) :=
  match s with
  | EmptyString => []
  | String c r =>
      match runs r with
      | (b, run) :: rest =>
          if Bool.eqb b (is_space c)
          then (b, String c run) :: rest
          else (is_space c, String c "") :: (b, run) :: rest
      | [] => [(is_space c, String c "")]
      end
  end.

Definition flatten (l : list string) : string := foldr String.append "" l.

(** ... and every white-space run becomes one underscore. *)
Definition render_run (r : bool * string) : string :=
  if r.1 then "_" else r.2.

Definition underscore_runs (s : string) : string :=
  flatten (render_run <$> runs s).

Fixpoint all_chars (P : ascii → bool) (s : string) : bool :=
  match s with
  | EmptyString => true
  | String c r => P c && all_chars P r
  end.

(** Neighbouring runs are of different kinds. *)
Fixpoint alternating (l : list (bool * string)) : Prop :=
  match l with
  | r1 :: ((r2 :: _) as rest) => r1.1 ≠ r2.1 ∧ alternating rest
  | _ => True
  end.

(** The part of the world that is not the file store. *)
Definition records (w : world)
  : gmap string Profile.t * gmap string User.t * list doc * list doc * nat :=
  (Profiles w, Users w, Educations w, Experiences w, next_id w).

(** The locations the upload middleware writes for a request. *)
Definition written (req : Req.t) : gset string :=
  list_to_set
    (omap (fmap stored_at)
       [Req.profilePic req; Req.profilePic2 req; Req.resumePdf req; Req.video req]).

(** The profile the handler saves over an existing one. *)
Definition merged (req : Req.t) (name : string) (p : Profile.t) : Profile.t :=
  {| Profile.userId := Profile.userId p;
     Profile.name := name;
     Profile.profilePic :=
       path_or "/uploads/images/" (uploaded (Req.profilePic req)) (Profile.profilePic p);
     Profile.profilePic2 :=
       path_or "/uploads/images/" (uploaded (Req.profilePic2 req)) (Profile.profilePic2 p);
     Profile.pdf :=
       path_or "/uploads/pdfs/" (uploaded (Req.resumePdf req)) (Profile.pdf p);
     Profile.video :=
       path_or "/uploads/videos/" (uploaded (Req.video req)) (Profile.video p);
     Profile.aboutText := js_or (Req.aboutText req) (Profile.aboutText p) |}.

(** The four conditional reclamations, in the handler's order, when none
    of them throws. *)
Definition reclaimed (req : Req.t) (p : Profile.t) (w : world) : option world :=
  w ← reclaim (uploaded (Req.profilePic req)) (Profile.profilePic p) w;
  w ← reclaim (uploaded (Req.profilePic2 req)) (Profile.profilePic2 p) w;
  w ← reclaim (uploaded (Req.resumePdf req)) (Profile.pdf p) w;
  reclaim (uploaded (Req.video req)) (Profile.video p) w.

(** The directories a process finds after start-up, with the service root
    itself. *)
Definition started_dirs : gset string :=
  {[ ""; "uploads"; "uploads/images"; "uploads/pdfs"; "uploads/videos" ]}.

(** Sample data for the worked instances. *)
Definition ann_profile : Profile.t :=
  {| Profile.userId := "u1"; Profile.name := "Ann";
     Profile.profilePic := Some "/uploads/images/1-old.png";
     Profile.profilePic2 := None;
     Profile.pdf := Some "/uploads/pdfs/1-cv.pdf";
     Profile.video := None;
     Profile.aboutText := Some "Hello" |}.

Definition ann_user : User.t :=
  {| User.email := Some "ann@example.org"; User.name := Some "Ann";
     User.phoneNumber := Some "555"; User.degree := Some "BSc";
     User.birthday := None; User.address := Some "Main St";
     User.experience := Some "5 years" |}.

Definition ann_world : world :=
  {| fs := {["uploads/images/1-old.png"; "uploads/pdfs/1-cv.pdf"]};
     dirs := started_dirs;
     Profiles := {["u1" := ann_profile]};
     Users := {["u1" := ann_user]};
     Educations := []; Experiences := []; next_id := 0 |}.

(** A text-only update that blanks every optional field. *)
Definition blank_update : Req.t :=
  {| Req.user := Some "u1"; Req.name := Some "Ann B";
     Req.phoneNumber := Some ""; Req.degree := Some "";
     Req.birthday := Some ""; Req.address := Some "";
     Req.experience := Some ""; Req.aboutText := Some "";
     Req.profilePic := None; Req.profilePic2 := None;
     Req.resumePdf := None; Req.video := None |}.

(** The claim in the words of the specification: an update whose name is
    empty or absent is answered with a 400-class error and the route
    writes nothing. *)
Definition rejected_update_writes_nothing : Prop :=
  ∀ (req : Req.t) (w : world),
    truthy (Req.name req) = false →
    400 ≤ status (post_update_profile req w).1 < 500 ∧
    (post_update_profile req w).2 = w.

(** An update with an empty name and a picture attached. *)
Definition nameless_upload : Req.t :=
  {| Req.user := Some "u1"; Req.name := Some "";
     Req.phoneNumber := None; Req.degree := None; Req.birthday := None;
     Req.address := None; Req.experience := None; Req.aboutText := None;
     Req.profilePic :=
       Some {| mimetype := "image/png"; originalname := "me.png"; now := 2 |};
     Req.profilePic2 := None; Req.resumePdf := None; Req.video := None |}.

(** A first upload by a caller without a profile: a PDF sent in the
    primary-picture slot. *)
Definition pdf_as_picture : Req.t :=
  {| Req.user := Some "u2"; Req.name := Some "Bob";
     Req.phoneNumber := None; Req.degree := None; Req.birthday := None;
     Req.address := None; Req.experience := None; Req.aboutText := None;
     Req.profilePic :=
       Some {| mimetype := "application/pdf"; originalname := "cv.pdf"; now := 2 |};
     Req.profilePic2 := None; Req.resumePdf := None; Req.video := None |}.

(** The same part sent by a caller whose profile already holds a picture. *)
Definition pdf_over_picture : Req.t :=
  {| Req.user := Some "u1"; Req.name := Some "Ann";
     Req.phoneNumber := None; Req.degree := None; Req.birthday := None;
     Req.address := None; Req.experience := None; Req.aboutText := None;
     Req.profilePic :=
       Some {| mimetype := "application/pdf"; originalname := "cv.pdf"; now := 2 |};
     Req.profilePic2 := None; Req.resumePdf := None; Req.video := None |}.

(** Decidable facts about the sample data are settled by evaluation. *)
Ltac by_evaluation := apply (bool_decide_unpack _); vm_compute; exact I.

(** The files one conditional reclamation removes. *)
Definition stale (x old : option string) : gset string :=
  if truthy x && truthy old
  then match old with Some p => {[normalize p]} | None => ∅ end
  else ∅.

(** Worked instance: a schema that stores documents as given, one earlier
    entry of the caller and one entry of another owner. *)
Definition stores_as_given (e : gmap string value) : option (gmap string value) :=
  Some e.

Definition bsc_entry : value :=
  VObj (list_to_map
          [("degreeName", VStr "BSc"); ("collegeName", VStr "X");
           ("fromYear", VNum 2018); ("toYear", VNum 2022)]).

Definition open_ended_entry : value :=
  VObj (list_to_map
          [("degreeName", VStr "BSc"); ("collegeName", VStr "X");
           ("fromYear", VNum 2018)]).

Definition school_world : world :=
  {| fs := ∅; dirs := started_dirs; Profiles := ∅; Users := ∅;
     Educations :=
       [ {| doc_id := 0;
            doc_fields := list_to_map
              [("userId", VStr "u1"); ("degreeName", VStr "HS");
               ("collegeName", VStr "Y"); ("fromYear", VNum 2014);
               ("toYear", VNum 2018)] |};
         {| doc_id := 1;
            doc_fields := list_to_map
              [("userId", VStr "u2"); ("degreeName", VStr "MSc");
               ("collegeName", VStr "Z"); ("fromYear", VNum 2010);
               ("toYear", VNum 2012)] |} ];
     Experiences := []; next_id := 2 |}.

(** ** Further definitions: names, slots, the profile view *)

Definition is_digit (c : ascii) : bool :=
  match c with
  | "0" | "1" | "2" | "3" | "4" | "5" | "6" | "7" | "8" | "9" => true
  | _ => false
  end%char.

Definition not_space (c : ascii) : bool := negb (is_space c).

Definition not_slash (c : ascii) : bool := negb (Ascii.eqb c "/"%char).

(** The four upload slots, with what the handler reads and writes for each. *)
Inductive slot : Type :=
  | PrimaryPicture
  | SecondaryPicture
  | Resume
  | VideoClip.

(** [req.files[slot]] *)
Definition part (s : slot) (req : Req.t) : option file :=
  match s with
  | PrimaryPicture => Req.profilePic req
  | SecondaryPicture => Req.profilePic2 req
  | Resume => Req.resumePdf req
  | VideoClip => Req.video req
  end.

(** The path field of the profile that belongs to the slot. *)
Definition stored_path (s : slot) (p : Profile.t) : option string :=
  match s with
  | PrimaryPicture => Profile.profilePic p
  | SecondaryPicture => Profile.profilePic2 p
  | Resume => Profile.pdf p
  | VideoClip => Profile.video p
  end.

(** The prefix the handler puts before the generated name. *)
Definition slot_prefix (s : slot) : string :=
  match s with
  | PrimaryPicture | SecondaryPicture => "/uploads/images/"
  | Resume => "/uploads/pdfs/"
  | VideoClip => "/uploads/videos/"
  end.

(** The media types the disk storage sends to the bucket of that prefix. *)
Definition expected (s : slot) (f : file) : bool :=
  match s with
  | PrimaryPicture | SecondaryPicture => String.prefix "image/" (mimetype f)
  | Resume => String.eqb (mimetype f) "application/pdf"
  | VideoClip => String.prefix "video/" (mimetype f)
  end.

(** The prior targets of the slots that receive a new upload. *)
Definition superseded (req : Req.t) (p : Profile.t) : gset string :=
  stale (uploaded (Req.profilePic req)) (Profile.profilePic p) ∪
  stale (uploaded (Req.profilePic2 req)) (Profile.profilePic2 p) ∪
  stale (uploaded (Req.resumePdf req)) (Profile.pdf p) ∪
  stale (uploaded (Req.video req)) (Profile.video p).

(** The profile the handler creates when the caller has none. *)
Definition created (req : Req.t) (userId name : string) : Profile.t :=
  {| Profile.userId := userId;
     Profile.name := name;
     Profile.profilePic :=
       path_or "/uploads/images/" (uploaded (Req.profilePic req)) None;
     Profile.profilePic2 :=
       path_or "/uploads/images/" (uploaded (Req.profilePic2 req)) None;
     Profile.pdf := path_or "/uploads/pdfs/" (uploaded (Req.resumePdf req)) None;
     Profile.video := path_or "/uploads/videos/" (uploaded (Req.video req)) None;
     Profile.aboutText := Req.aboutText req |}.

(** The profile a valid update saves, over the one found or afresh. *)
Definition saved (req : Req.t) (userId name : string) (found : option Profile.t)
  : Profile.t :=
  match found with
  | Some p => merged req name p
  | None => created req userId name
  end.

(** The users after a valid update. *)
Definition users_after (req : Req.t) (userId name : string)
    (us : gmap string User.t) : gmap string User.t :=
  match us !! userId with
  | Some u => <[userId := update_user req name u]> us
  | None => us
  end.

(** A first, text-only update by a caller without profile or user record. *)
Definition first_update : Req.t :=
  {| Req.user := Some "u3"; Req.name := Some "Cy";
     Req.phoneNumber := Some "777"; Req.degree := None; Req.birthday := None;
     Req.address := None; Req.experience := None; Req.aboutText := Some "Hi";
     Req.profilePic := None; Req.profilePic2 := None;
     Req.resumePdf := None; Req.video := None |}.

(** An update without a resolved caller that carries a picture. *)
Definition anonymous_upload : Req.t :=
  {| Req.user := None; Req.name := Some "Eve";
     Req.phoneNumber := None; Req.degree := None; Req.birthday := None;
     Req.address := None; Req.experience := None; Req.aboutText := None;
     Req.profilePic :=
       Some {| mimetype := "image/png"; originalname := "me.png"; now := 3 |};
     Req.profilePic2 := None; Req.resumePdf := None; Req.video := None |}.

(** A new picture and a new résumé, each of the expected media type. *)
Definition picture_and_resume : Req.t :=
  {| Req.user := Some "u1"; Req.name := Some "Ann";
     Req.phoneNumber := None; Req.degree := None; Req.birthday := None;
     Req.address := None; Req.experience := None; Req.aboutText := None;
     Req.profilePic :=
       Some {| mimetype := "image/jpeg"; originalname := "new me.jpg"; now := 5 |};
     Req.profilePic2 := None;
     Req.resumePdf :=
       Some {| mimetype := "application/pdf"; originalname := "cv.pdf"; now := 6 |};
     Req.video := None |}.

(** ** GET /get-profile *)

(** The denormalised view the route answers with. *)
Record profile_view := {
  view_name : string;
  view_email : option string;
  view_profilePic : option string;
  view_profilePic2 : string;
  view_pdf : option string;
  view_video : option string;
  view_aboutText : string;
  view_phoneNumber : string;
  view_degree : string;
  view_birthday : string;
  view_address : string;
  view_experience : string
}.

Inductive profile_reply : Type :=
  | NotFound (message : string)
  | Fetched (message : string) (data : profile_view).

Record profile_response := {
  view_status : nat;
  view_json : profile_reply
}.

(** [x || ''] *)
Definition or_empty (x : option string) : string :=
  match js_or x None with
  | Some s => s
  | None => ""
  end.

Section Fallback.

(** [User.findOne()]: some user of the collection with its id, none when
    the collection is empty; which one is the database's choice. *)
Variable findOne : gmap string User.t → option (string * User.t).

(** The caller is the one the authentication middleware resolved, if any
    ([req.user?.id]); the route carries no such middleware, so the value
    is whatever an earlier layer left on the request. With no id at all
    [User.findById(undefined)] finds nobody and the answer is 404. *)
Definition get_profile (caller : option string) (w : world) : profile_response :=
  let userId :=
    match js_or caller None with
    | Some userId => Some userId
    | None => fst <$> findOne (Users w)
    end in
  match userId with
  | None => {| view_status := 404; view_json := NotFound "Profile or user not found" |}
  | Some userId =>
      match Profiles w !! userId, Users w !! userId with
      | Some profile, Some user =>
          {| view_status := 200;
             view_json :=
               Fetched "Profile data fetched successfully"
                 {| view_name := Profile.name profile;
                    view_email := User.email user;
                    view_profilePic := Profile.profilePic profile;
                    view_profilePic2 := or_empty (Profile.profilePic2 profile);
                    view_pdf := Profile.pdf profile;
                    view_video := Profile.video profile;
                    view_aboutText := or_empty (Profile.aboutText profile);
                    view_phoneNumber := or_empty (User.phoneNumber user);
                    view_degree := or_empty (User.degree user);
                    view_birthday := or_empty (User.birthday user);
                    view_address := or_empty (User.address user);
                    view_experience := or_empty (User.experience user) |} |}
      | _, _ =>
          {| view_status := 404; view_json := NotFound "Profile or user not found" |}
      end
  end.

End Fallback.

(** A fallback query for the worked instances: the user with the least id. *)
Definition least_user (us : gmap string User.t) : option (string * User.t) :=
  head (map_to_list us).

(** A full text update by a caller with profile and user record. *)
Definition full_update : Req.t :=
  {| Req.user := Some "u1"; Req.name := Some "Ann B";
     Req.phoneNumber := Some "999"; Req.degree := Some "MSc";
     Req.birthday := Some "1990-01-01"; Req.address := Some "Side St";
     Req.experience := Some "6 years"; Req.aboutText := Some "Hi there";
     Req.profilePic := None; Req.profilePic2 := None;
     Req.resumePdf := None; Req.video := None |}.

(** ** Sample submissions *)

Definition is_object (e : value) : bool :=
  match e with
  | VObj _ => true
  | _ => false
  end.

(** An entry whose first year is present but zero. *)
Definition year_zero_entry : value :=
  VObj (list_to_map
          [("degreeName", VStr "BSc"); ("collegeName", VStr "X");
           ("fromYear", VNum 0); ("toYear", VNum 2022)]).

Definition job_entry : value :=
  VObj (list_to_map
          [("designation", VStr "Engineer"); ("companyName", VStr "Acme");
           ("fromTime", VStr "2020"); ("toTime", VStr "2023")]).

(** A schema that refuses every document. *)
Definition refuses_all (e : gmap string value) : option (gmap string value) :=
  None.

(** The bucket whose name the handler writes into the path of a slot. *)
Definition slot_bucket (s : slot) : string :=
  match s with
  | PrimaryPicture | SecondaryPicture => "images"
  | Resume => "pdfs"
  | VideoClip => "videos"
  end.

(** A video sent in the résumé slot. *)
Definition video_as_resume : Req.t :=
  {| Req.user := Some "u1"; Req.name := Some "Ann";
     Req.phoneNumber := None; Req.degree := None; Req.birthday := None;
     Req.address := None; Req.experience := None; Req.aboutText := None;
     Req.profilePic := None; Req.profilePic2 := None;
     Req.resumePdf :=
       Some {| mimetype := "video/mp4"; originalname := "talk.mp4"; now := 9 |};
     Req.video := None |}.

(** ** What makes the route fail *)

(** The parts of a request. *)
Definition parts (req : Req.t) : list file :=
  omap id [Req.profilePic req; Req.profilePic2 req; Req.resumePdf req;
           Req.video req].

(** Every part of the request can be written. *)
Definition storable (req : Req.t) (w : world) : bool :=
  forallb (λ f, writable f w) (parts req).

(** The conditional reclamation of a slot throws: the slot has a new upload
    and its prior path resolves to a directory. *)
Definition blocks (x old : option string) (w : world) : bool :=
  match old with
  | Some p => truthy x && nonempty p && is_directory (normalize p) w
  | None => false
  end.

(** None of the targets is a directory. *)
Definition no_directory (targets : gset string) (w : world) : Prop :=
  set_Forall (λ x, is_directory x w = false) targets.

(** No prior path of the caller's profile that the request supersedes
    resolves to a directory. *)
Definition reclaimable (req : Req.t) (w : world) (userId : string) : Prop :=
  ∀ p, Profiles w !! userId = Some p → no_directory (superseded req p) w.

(** The hypotheses on the disk of a sample request are settled by
    evaluation. *)
Ltac reclaimable_by_evaluation :=
  let p := fresh "p" in
  let Hp := fresh "Hp" in
  intros p Hp; vm_compute in Hp;
  first [discriminate Hp | injection Hp as <-; unfold no_directory; by_evaluation].


(** A world before start-up, with nothing on disk. *)
Definition bare_world : world :=
  {| fs := ∅; dirs := {[ "" ]}; Profiles := ∅; Users := ∅;
     Educations := []; Experiences := []; next_id := 0 |}.

(** A valid update with a picture and a document of another kind. *)
Definition picture_and_doc : Req.t :=
  {| Req.user := Some "u1"; Req.name := Some "Ann B";
     Req.phoneNumber := None; Req.degree := None; Req.birthday := None;
     Req.address := None; Req.experience := None; Req.aboutText := None;
     Req.profilePic :=
       Some {| mimetype := "image/png"; originalname := "me.png"; now := 4 |};
     Req.profilePic2 := None;
     Req.resumePdf :=
       Some {| mimetype := "application/msword"; originalname := "cv.doc"; now := 4 |};
     Req.video := None |}.

(** The claim in the words of the specification: the reclaimer is total,
    it returns for every path and every state of the disk. *)
Definition reclaimer_is_total : Prop :=
  ∀ (filePath : option string) (w : world), is_Some (deleteOldFile filePath w).

(** * Properties *)

(** ** Strings *)

Lemma append_cons (c : ascii) (s t : string) :
  String c s +:+ t = String c (s +:+ t).
Proof. reflexivity. Qed.

Lemma append_empty_l (t : string) : "" +:+ t = t.
Proof. reflexivity. Qed.

Lemma append_empty_r (s : string) : s +:+ "" = s.
Proof. induction s as [|c s IH]; [done|]. by rewrite append_cons, IH. Qed.

Lemma append_assoc (s t u : string) : (s +:+ t) +:+ u = s +:+ t +:+ u.
Proof. induction s as [|c s IH]; [done|]. by rewrite !append_cons, IH. Qed.

Lemma nonempty_true (s : string) : nonempty s = true ↔ s ≠ "".
Proof. destruct s; simpl; split; congruence. Qed.

Lemma truthy_Some (o : option string) :
  truthy o = true ↔ ∃ s, o = Some s ∧ s ≠ "".
Proof.
  destruct o as [s|]; simpl.
  - rewrite nonempty_true. split.
    + intros Hs. by exists s.
    + by intros (s' & [= <-] & Hs).
  - split; [done|]. by intros (s & Hs & _).
Qed.

Lemma js_or_truthy (a b : option string) : truthy a = true → js_or a b = a.
Proof. unfold js_or. by intros ->. Qed.

Lemma js_or_falsy (a b : option string) : truthy a = false → js_or a b = b.
Proof. unfold js_or. by intros ->. Qed.

(** ** The white-space runs of a name *)

(** The runs are a decomposition of the name... *)
Lemma runs_flatten (s : string) : flatten (snd <$> runs s) = s.
Proof.
  induction s as [|c s IH]; [done|]. simpl.
  destruct (runs s) as [|[b run] rest]; simpl in *.
  - by rewrite <- IH.
  - destruct (Bool.eqb b (is_space c)); simpl; by rewrite <- IH.
Qed.

(** ... each run is non-empty and of one kind ... *)
Lemma runs_uniform (s : string) :
  Forall (λ r, nonempty r.2 = true ∧
               all_chars (λ c, Bool.eqb (is_space c) r.1) r.2 = true) (runs s).
Proof.
  induction s as [|c s IH]; simpl; [constructor|].
  destruct (runs s) as [|[b run] rest].
  - repeat constructor. simpl. by destruct (is_space c).
  - destruct (Bool.eqb b (is_space c)) eqn:E.
    + apply Bool.eqb_prop in E as ->.
      inversion IH as [|? ? [Hne Hall] Hrest]; subst; simpl in *.
      constructor; [|done]. simpl. split; [done|].
      rewrite Hall. by destruct (is_space c).
    + constructor; [|done]. simpl. by destruct (is_space c).
Qed.

(** ... and neighbouring runs are of different kinds, so each is maximal. *)
Lemma runs_alternating (s : string) : alternating (runs s).
Proof.
  induction s as [|c s IH]; simpl; [done|].
  destruct (runs s) as [|[b run] rest]; [done|].
  destruct (Bool.eqb b (is_space c)) eqn:E.
  - destruct rest; simpl in *; done.
  - simpl. split; [|done]. intros <-. by destruct (is_space c).
Qed.

Example replace_ws_sample :
  replace_ws false "  my   demo reel .mp4 " = "_my_demo_reel_.mp4_".
Proof. reflexivity. Qed.

Example runs_sample :
  runs " a  b" = [(true, " "); (false, "a"); (true, "  "); (false, "b")].
Proof. reflexivity. Qed.

(** The scanner of [replace_ws] against the runs. *)
Lemma replace_ws_runs (s : string) :
  replace_ws false s = underscore_runs s ∧
  replace_ws true s =
    flatten (render_run <$>
      match runs s with
      | (true, _) :: rest => rest
      | l => l
      end).
Proof.
  unfold underscore_runs.
  induction s as [|c s [IHf IHt]]; [done|]. simpl.
  destruct (runs s) as [|[b run] rest]; simpl in *.
  - rewrite IHf, IHt. destruct (is_space c); done.
  - destruct (is_space c) eqn:Hc, b; simpl in *;
      rewrite ?IHf, ?IHt; done.
Qed.

(** ** File Classifier & Store *)

Example normalize_sample :
  normalize "/uploads/images/../pdfs//./a.pdf" = "uploads/pdfs/a.pdf".
Proof. reflexivity. Qed.

Example stored_at_sample :
  stored_at {| mimetype := "text/plain"; originalname := "to do.txt"; now := 7 |}
  = "uploads/others/7-to_do.txt".
Proof. reflexivity. Qed.

Lemma prefix_cons (a b : ascii) (s t : string) :
  String.prefix (String a s) (String b t) =
  if Ascii.eqb a b then String.prefix s t else false.
Proof.
  simpl. destruct (ascii_dec a b) as [->|Hne].
  - by rewrite Ascii.eqb_refl.
  - apply Ascii.eqb_neq in Hne. by rewrite Hne.
Qed.

Lemma video_prefix_excludes (type : string) :
  String.prefix "video/" type = true →
  String.prefix "image/" type = false ∧ String.eqb type "application/pdf" = false.
Proof.
  destruct type as [|c type]; [done|].
  rewrite !prefix_cons.
  destruct (Ascii.eqb_spec "v" c) as [<-|]; [|done].
  intros _. split; reflexivity.
Qed.

Lemma destination_image (f : file) :
  String.prefix "image/" (mimetype f) = true → destination f = "uploads/images".
Proof. unfold destination. by intros ->. Qed.

Lemma destination_pdf (f : file) :
  mimetype f = "application/pdf" → destination f = "uploads/pdfs".
Proof. unfold destination. by intros ->. Qed.

Lemma destination_video (f : file) :
  String.prefix "video/" (mimetype f) = true → destination f = "uploads/videos".
Proof.
  unfold destination. intros Hv.
  destruct (video_prefix_excludes _ Hv) as [-> ->]. by rewrite Hv.
Qed.

(** C6. The bucket depends on the declared media type alone: a type that
    starts with [image/] goes to the images bucket, [application/pdf]
    itself to the pdfs bucket, a type that starts with [video/] to the
    videos bucket and any other type to the others bucket. The generated
    name is the time in milliseconds, a hyphen, and the original name with
    each run of white space replaced by one underscore. *)
Theorem storage_bucket_and_name (f : file) :
  (String.prefix "image/" (mimetype f) = true →
     destination f = "uploads/images") ∧
  (mimetype f = "application/pdf" → destination f = "uploads/pdfs") ∧
  (String.prefix "video/" (mimetype f) = true →
     destination f = "uploads/videos") ∧
  (String.prefix "image/" (mimetype f) = false →
   mimetype f ≠ "application/pdf" →
   String.prefix "video/" (mimetype f) = false →
     destination f = "uploads/others") ∧
  (∀ g : file, mimetype g = mimetype f → destination g = destination f) ∧
  filename f = pretty (now f) +:+ "-" +:+ underscore_runs (originalname f).
Proof.
  split_and!.
  - apply destination_image.
  - apply destination_pdf.
  - apply destination_video.
  - unfold destination. intros -> Hpdf ->.
    apply String.eqb_neq in Hpdf. by rewrite Hpdf.
  - unfold destination. by intros g ->.
  - unfold filename. by rewrite (proj1 (replace_ws_runs _)).
Qed.

Lemma storage_bucket_and_name_witness :
  let f := {| mimetype := "video/mp4"; originalname := "my  demo reel.mp4";
              now := 1700000000123 |} in
  destination f = "uploads/videos" ∧
  filename f = "1700000000123-my_demo_reel.mp4".
Proof.
  intros f.
  destruct (storage_bucket_and_name f) as (_ & _ & Hvideo & _ & _ & Hname).
  split; [apply Hvideo; reflexivity|].
  rewrite Hname. reflexivity.
Defined.

(** ** Frame lemmas: what each step leaves alone *)

Lemma world_eq (w1 w2 : world) :
  fs w1 = fs w2 → dirs w1 = dirs w2 → records w1 = records w2 → w1 = w2.
Proof.
  destruct w1, w2. unfold records. simpl. by intros -> -> [= -> -> -> -> ->].
Qed.

Lemma set_fs_fs (w : world) (files : gset string) : fs (set_fs w files) = files.
Proof. reflexivity. Qed.

Lemma set_fs_records (w : world) (files : gset string) :
  records (set_fs w files) = records w.
Proof. reflexivity. Qed.

Lemma set_fs_same (w : world) : set_fs w (fs w) = w.
Proof. by destruct w. Qed.

Lemma set_fs_id (w : world) (files : gset string) :
  files = fs w → set_fs w files = w.
Proof. intros ->. apply set_fs_same. Qed.

Lemma set_fs_set_fs (w : world) (a b : gset string) :
  set_fs (set_fs w a) b = set_fs w b.
Proof. reflexivity. Qed.

Lemma records_Profiles (w1 w2 : world) :
  records w1 = records w2 → Profiles w1 = Profiles w2.
Proof. unfold records. by intros [= -> _ _ _ _]. Qed.

Lemma records_Users (w1 w2 : world) :
  records w1 = records w2 → Users w1 = Users w2.
Proof. unfold records. by intros [= _ -> _ _ _]. Qed.

(** The reclaimer on a non-empty path, in one equation. *)
Lemma deleteOldFile_eq (p : string) (w : world) :
  nonempty p = true →
  deleteOldFile (Some p) w =
  if is_directory (normalize p) w then None
  else Some (set_fs w (fs w ∖ {[normalize p]})).
Proof.
  intros Hp. unfold deleteOldFile, existsSync, unlinkSync. rewrite Hp. simpl.
  destruct (is_directory (normalize p) w); [by rewrite orb_true_r|].
  rewrite orb_false_r. case_bool_decide as Hin; [done|].
  f_equal. symmetry. apply set_fs_id. set_solver.
Qed.

Lemma deleteOldFile_falsy (filePath : option string) (w : world) :
  truthy filePath = false → deleteOldFile filePath w = Some w.
Proof.
  unfold deleteOldFile. destruct filePath as [p|]; [|done]. simpl. by intros ->.
Qed.

Lemma deleteOldFile_Some (filePath : option string) (w w' : world) :
  deleteOldFile filePath w = Some w' →
  dirs w' = dirs w ∧ records w' = records w ∧
  fs w' =
    match filePath with
    | Some p => if nonempty p then fs w ∖ {[normalize p]} else fs w
    | None => fs w
    end.
Proof.
  destruct filePath as [p|]; [|by intros [= <-]].
  destruct (nonempty p) eqn:Hp.
  - rewrite deleteOldFile_eq by done.
    destruct (is_directory (normalize p) w); [done|]. by intros [= <-].
  - rewrite deleteOldFile_falsy by done. by intros [= <-].
Qed.

(** ** Stale-File Reclaimer *)

(** C8, as stated, fails: on a path that resolves to a directory, here the
    images bucket, [existsSync] holds and [unlinkSync] throws. *)
Lemma reclaimer_raises_on_directory : ¬ reclaimer_is_total.
Proof.
  intros Htotal.
  destruct (Htotal (Some "/uploads/images") ann_world) as [w' Hw'].
  vm_compute in Hw'. discriminate Hw'.
Qed.

(** C8, amended. The reclaimer does nothing for a null, absent or empty
    path and nothing when neither a file nor a directory is at the
    resolved path; it raises exactly when the resolved path is an existing
    directory. Whenever it returns, no persisted record and no directory
    has changed, running it again changes nothing more, and if the file
    store has changed then the resolved target was a file that was present
    and is the one file removed. *)
Theorem deleteOldFile_idempotent (filePath : option string) (w : world) :
  (truthy filePath = false → deleteOldFile filePath w = Some w) ∧
  (∀ p, filePath = Some p → existsSync (normalize p) w = false →
        deleteOldFile filePath w = Some w) ∧
  (∀ p, filePath = Some p → p ≠ "" →
        (deleteOldFile filePath w = None ↔ is_directory (normalize p) w = true)) ∧
  (∀ w', deleteOldFile filePath w = Some w' →
         records w' = records w ∧ dirs w' = dirs w ∧
         deleteOldFile filePath w' = Some w' ∧
         (w' ≠ w →
          ∃ p, filePath = Some p ∧ normalize p ∈ fs w ∧
               fs w' = fs w ∖ {[normalize p]})).
Proof.
  split_and!.
  - apply deleteOldFile_falsy.
  - intros p -> Hmissing. unfold deleteOldFile.
    destruct (nonempty p); [|done]. simpl. by rewrite Hmissing.
  - intros p -> Hp%nonempty_true. rewrite deleteOldFile_eq by done.
    by destruct (is_directory (normalize p) w).
  - intros w' Hw'.
    destruct (deleteOldFile_Some _ _ _ Hw') as (Hdirs & Hrec & Hfs).
    split_and!; [done|done| |].
    + destruct filePath as [p|]; [|by injection Hw' as <-].
      destruct (nonempty p) eqn:Hp;
        [|rewrite deleteOldFile_falsy in Hw' |- * by done; by injection Hw' as <-].
      rewrite deleteOldFile_eq in Hw' |- * by done.
      unfold is_directory in *. rewrite Hdirs.
      destruct (bool_decide (trim_slash (normalize p) ∈ dirs w)); [done|].
      injection Hw' as <-. f_equal. simpl. f_equal. set_solver.
    + intros Hne. destruct filePath as [p|]; [|by injection Hw' as <-].
      destruct (nonempty p) eqn:Hp; [|by rewrite deleteOldFile_falsy in Hw';
                                       [injection Hw' as <-|]].
      exists p. split_and!; [done| |done].
      destruct (decide (normalize p ∈ fs w)) as [|Hout]; [done|].
      destruct Hne. apply world_eq; [|done|done]. rewrite Hfs. set_solver.
Qed.

Lemma deleteOldFile_idempotent_witness :
  deleteOldFile (Some "") ann_world = Some ann_world ∧
  deleteOldFile (Some "/uploads/images/2-b.png") ann_world = Some ann_world ∧
  deleteOldFile (Some "/uploads/images/") ann_world = None ∧
  ∃ w', deleteOldFile (Some "/uploads/images/1-old.png") ann_world = Some w' ∧
        fs w' = fs ann_world ∖ {["uploads/images/1-old.png"]}.
Proof.
  destruct (deleteOldFile_idempotent (Some "") ann_world) as (Hfalsy & _).
  destruct (deleteOldFile_idempotent (Some "/uploads/images/2-b.png") ann_world)
    as (_ & Hmissing & _).
  destruct (deleteOldFile_idempotent (Some "/uploads/images/") ann_world)
    as (_ & _ & Hraises & _).
  destruct (deleteOldFile (Some "/uploads/images/1-old.png") ann_world)
    as [w'|] eqn:Hw'; [|by vm_compute in Hw'].
  destruct (deleteOldFile_idempotent (Some "/uploads/images/1-old.png") ann_world)
    as (_ & _ & _ & Hremoved).
  destruct (Hremoved w' Hw') as (_ & _ & _ & Hchanged).
  split_and!.
  - apply Hfalsy. reflexivity.
  - apply (Hmissing "/uploads/images/2-b.png"); reflexivity.
  - apply (Hraises "/uploads/images/"); [reflexivity|discriminate|reflexivity].
  - exists w'. split; [done|].
    destruct Hchanged as (p & [= <-] & _ & Hfs); [|exact Hfs].
    intros ->. vm_compute in Hw'. discriminate Hw'.
Defined.

(** ** Profile Merge Engine *)

Lemma js_or_None_Some (o : option string) (s : string) :
  js_or o None = Some s ↔ o = Some s ∧ s ≠ "".
Proof.
  unfold js_or. destruct (truthy o) eqn:Ho.
  - apply truthy_Some in Ho as (s' & -> & Hs'). split.
    + by intros [= <-].
    + by intros [-> _].
  - split; [done|]. intros [-> Hs].
    apply nonempty_true in Hs. simpl in Ho. congruence.
Qed.

Lemma js_or_None_cases (o : option string) :
  (truthy o = false ∧ js_or o None = None) ∨
  (∃ s, o = Some s ∧ s ≠ "" ∧ js_or o None = Some s).
Proof.
  destruct (truthy o) eqn:Ho.
  - right. apply truthy_Some in Ho as (s & -> & Hs). exists s.
    split_and!; [done|done|]. by apply js_or_None_Some.
  - left. split; [done|]. by apply js_or_falsy.
Qed.

(** *** The upload middleware *)

Lemma writable_set_fs (f : file) (w : world) (files : gset string) :
  writable f (set_fs w files) = writable f w.
Proof. reflexivity. Qed.

Lemma store_eq (slot : option file) (w : world) :
  store slot w =
  match slot with
  | Some f =>
      if writable f w then Some (set_fs w ({[stored_at f]} ∪ fs w)) else None
  | None => Some w
  end.
Proof. reflexivity. Qed.

(** The middleware in one equation: all parts are stored, or none. *)
Lemma upload_fields_eq (req : Req.t) (w : world) :
  upload_fields req w =
  if storable req w then Some (set_fs w (written req ∪ fs w)) else None.
Proof.
  unfold upload_fields, storable, parts, written.
  destruct (Req.profilePic req) as [f1|], (Req.profilePic2 req) as [f2|],
    (Req.resumePdf req) as [f3|], (Req.video req) as [f4|]; simpl;
    repeat match goal with
    | |- context [writable ?f (set_fs ?w ?x)] => rewrite (writable_set_fs f w x)
    | |- context [writable ?f w] => destruct (writable f w); simpl
    end;
    try done; f_equal;
    try (symmetry; apply set_fs_id);
    try (rewrite ?set_fs_set_fs; f_equal); set_solver.
Qed.

Lemma storable_no_files (req : Req.t) (w : world) :
  Req.profilePic req = None → Req.profilePic2 req = None →
  Req.resumePdf req = None → Req.video req = None →
  storable req w = true.
Proof. unfold storable, parts. by intros -> -> -> ->. Qed.

Lemma upload_fields_no_files (req : Req.t) (w : world) :
  Req.profilePic req = None → Req.profilePic2 req = None →
  Req.resumePdf req = None → Req.video req = None →
  upload_fields req w = Some w.
Proof. unfold upload_fields. by intros -> -> -> ->. Qed.

(** *** One conditional reclamation *)

Lemma reclaim_eq (x old : option string) (w : world) :
  reclaim x old w =
  if blocks x old w then None else Some (set_fs w (fs w ∖ stale x old)).
Proof.
  unfold reclaim, blocks, stale.
  destruct old as [p|]; cbn [truthy];
    [destruct (nonempty p) eqn:Hp|]; destruct (truthy x); cbn [andb];
    try (f_equal; symmetry; apply set_fs_id; set_solver).
  by rewrite deleteOldFile_eq.
Qed.

Lemma reclaim_Some (x old : option string) (w w' : world) :
  reclaim x old w = Some w' →
  fs w' = fs w ∖ stale x old ∧ dirs w' = dirs w ∧ records w' = records w.
Proof.
  rewrite reclaim_eq. destruct (blocks x old w); [done|]. by intros [= <-].
Qed.

Lemma blocks_set_fs (x old : option string) (w : world) (files : gset string) :
  blocks x old (set_fs w files) = blocks x old w.
Proof. reflexivity. Qed.

Lemma catch_reclaim (x old : option string) (w : world)
    (next : world → response * world) :
  catch (reclaim x old w) w next =
  if blocks x old w then (server_error, w)
  else next (set_fs w (fs w ∖ stale x old)).
Proof. unfold catch. rewrite reclaim_eq. by destruct (blocks x old w). Qed.

Lemma blocks_true (x old : option string) (w : world) :
  blocks x old w = true → ∃ t, t ∈ stale x old ∧ is_directory t w = true.
Proof.
  unfold blocks, stale. destruct old as [p|]; [|done].
  intros [[Hx Hp]%andb_true_iff Hd]%andb_true_iff.
  exists (normalize p). simpl. rewrite Hx, Hp. split; [|done].
  by apply elem_of_singleton.
Qed.

Lemma blocks_false (x old : option string) (w : world) :
  blocks x old w = false → no_directory (stale x old) w.
Proof.
  unfold blocks, stale, no_directory. intros Hb t Ht.
  destruct old as [p|]; [|by destruct (truthy x && truthy None)].
  simpl in Ht. destruct (truthy x); [|set_solver]. simpl in *.
  destruct (nonempty p); [|set_solver]. simpl in *.
  apply elem_of_singleton in Ht as ->. done.
Qed.

Lemma stale_not_uploaded (slot : option file) (old : option string) :
  slot = None → stale (uploaded slot) old = ∅.
Proof. by intros ->. Qed.

Lemma reclaim_None (old : option string) (w : world) :
  reclaim None old w = Some w.
Proof. reflexivity. Qed.

Lemma path_or_None (prefix : string) (otherwise : option string) :
  path_or prefix None otherwise = otherwise.
Proof. reflexivity. Qed.

(** When no reclamation throws, exactly the prior targets of the
    re-uploaded slots are removed; a slot without a new upload contributes
    nothing. *)
Lemma reclaimed_fs (req : Req.t) (p : Profile.t) (w w' : world) :
  reclaimed req p w = Some w' →
  fs w' = fs w ∖ superseded req p ∧ dirs w' = dirs w ∧ records w' = records w.
Proof.
  unfold reclaimed, superseded. intros H.
  apply bind_Some in H as (w1 & H1 & H). apply bind_Some in H as (w2 & H2 & H).
  apply bind_Some in H as (w3 & H3 & H4).
  apply reclaim_Some in H1 as (F1 & D1 & R1).
  apply reclaim_Some in H2 as (F2 & D2 & R2).
  apply reclaim_Some in H3 as (F3 & D3 & R3).
  apply reclaim_Some in H4 as (F4 & D4 & R4).
  split_and!; [|congruence|congruence].
  rewrite F4, F3, F2, F1. set_solver.
Qed.

(** *** The handler *)

Lemma update_profile_unauthorized (req : Req.t) (w : world) :
  truthy (Req.user req) = false →
  update_profile req w =
    ({| status := 401; json := Message "Unauthorized: Missing user ID" |}, w).
Proof.
  intros Hu. unfold update_profile. by rewrite (js_or_falsy (Req.user req)).
Qed.

(** An invalid update: the handler answers and leaves the world alone. *)
Lemma update_profile_rejected (req : Req.t) (w : world) :
  truthy (Req.name req) = false →
  update_profile req w =
    (if truthy (Req.user req)
     then {| status := 400; json := Message "Name is required" |}
     else {| status := 401; json := Message "Unauthorized: Missing user ID" |},
     w).
Proof.
  intros Hname. unfold update_profile.
  rewrite (js_or_falsy (Req.name req)) by done.
  unfold js_or at 1. destruct (truthy (Req.user req)) eqn:Hu; [|done].
  apply truthy_Some in Hu as (u & -> & _). done.
Qed.

(** A valid update when the owner has no profile yet. *)
Lemma update_profile_fresh (req : Req.t) (w : world) (userId name : string) :
  js_or (Req.user req) None = Some userId →
  js_or (Req.name req) None = Some name →
  Profiles w !! userId = None →
  (update_profile req w).1 =
    {| status := 200;
       json := Saved "Profile saved successfully" (created req userId name) |} ∧
  fs (update_profile req w).2 = fs w ∧
  dirs (update_profile req w).2 = dirs w ∧
  Profiles (update_profile req w).2 =
    <[userId := created req userId name]> (Profiles w) ∧
  Users (update_profile req w).2 = users_after req userId name (Users w) ∧
  Educations (update_profile req w).2 = Educations w ∧
  Experiences (update_profile req w).2 = Experiences w ∧
  next_id (update_profile req w).2 = next_id w.
Proof.
  intros Huser Hname Hp. unfold update_profile, users_after.
  rewrite Huser, Hname, Hp.
  destruct (Users w !! userId) as [u|]; simpl; done.
Qed.

(** A valid update of an existing profile: the reclamations run in turn;
    if one throws the answer is 500 and neither the profile nor the user
    is saved, otherwise the merged profile and the user are saved. In both
    cases the files removed are prior targets of re-uploaded slots. *)
Lemma update_profile_existing (req : Req.t) (w : world)
    (userId name : string) (p : Profile.t) :
  js_or (Req.user req) None = Some userId →
  js_or (Req.name req) None = Some name →
  Profiles w !! userId = Some p →
  ∃ D, D ⊆ superseded req p ∧
    fs (update_profile req w).2 = fs w ∖ D ∧
    dirs (update_profile req w).2 = dirs w ∧
    Educations (update_profile req w).2 = Educations w ∧
    Experiences (update_profile req w).2 = Experiences w ∧
    next_id (update_profile req w).2 = next_id w ∧
    ((no_directory (superseded req p) w ∧ D = superseded req p ∧
      (update_profile req w).1 =
        {| status := 200;
           json := Saved "Profile saved successfully" (merged req name p) |} ∧
      Profiles (update_profile req w).2 =
        <[userId := merged req name p]> (Profiles w) ∧
      Users (update_profile req w).2 = users_after req userId name (Users w)) ∨
     (¬ no_directory (superseded req p) w ∧
      (update_profile req w).1 = server_error ∧
      Profiles (update_profile req w).2 = Profiles w ∧
      Users (update_profile req w).2 = Users w)).
Proof.
  intros Huser Hname Hp.
  destruct (update_profile req w) as [res w'] eqn:E. cbn [fst snd].
  unfold update_profile in E. rewrite Huser, Hname, Hp in E.
  unfold superseded, no_directory.
  set (S1 := stale (uploaded (Req.profilePic req)) (Profile.profilePic p)) in *.
  set (S2 := stale (uploaded (Req.profilePic2 req)) (Profile.profilePic2 p)) in *.
  set (S3 := stale (uploaded (Req.resumePdf req)) (Profile.pdf p)) in *.
  set (S4 := stale (uploaded (Req.video req)) (Profile.video p)) in *.
  assert (Hthrow : ∀ S, S ⊆ S1 ∪ S2 ∪ S3 ∪ S4 →
            (∃ t, t ∈ S ∧ is_directory t w = true) →
            ¬ set_Forall (λ x, is_directory x w = false) (S1 ∪ S2 ∪ S3 ∪ S4)).
  { intros S HS (t & Ht & Hd) Hall. specialize (Hall t (HS t Ht)). congruence. }
  rewrite catch_reclaim in E.
  destruct (blocks _ (Profile.profilePic p) w) eqn:B1.
  { injection E as <- <-.
    exists ∅. split_and!; [set_solver|set_solver|done..|].
    right. split_and!; [|done..].
    apply (Hthrow S1); [set_solver|by apply blocks_true]. }
  rewrite catch_reclaim, !blocks_set_fs in E.
  destruct (blocks _ (Profile.profilePic2 p) w) eqn:B2.
  { injection E as <- <-.
    exists S1. split_and!; [set_solver|done..|].
    right. split_and!; [|done..].
    apply (Hthrow S2); [set_solver|by apply blocks_true]. }
  rewrite catch_reclaim, !blocks_set_fs in E.
  destruct (blocks _ (Profile.pdf p) w) eqn:B3.
  { injection E as <- <-.
    exists (S1 ∪ S2). split_and!; [set_solver|simpl; set_solver|done..|].
    right. split_and!; [|done..].
    apply (Hthrow S3); [set_solver|by apply blocks_true]. }
  rewrite catch_reclaim, !blocks_set_fs in E.
  destruct (blocks _ (Profile.video p) w) eqn:B4.
  { injection E as <- <-.
    exists (S1 ∪ S2 ∪ S3). split_and!; [set_solver|simpl; set_solver|done..|].
    right. split_and!; [|done..].
    apply (Hthrow S4); [set_solver|by apply blocks_true]. }
  exists (S1 ∪ S2 ∪ S3 ∪ S4). unfold users_after.
  destruct (Users w !! userId) as [u|] eqn:Hu; simpl in E; rewrite ?Hu in E;
    injection E as <- <-; simpl;
    (split_and!; [set_solver|set_solver|done..|]);
    left; (split_and!; [|done..]);
    repeat apply set_Forall_union; by apply blocks_false.
Qed.

(** *** The route *)

Lemma post_update_profile_unstorable (req : Req.t) (w : world) :
  storable req w = false → post_update_profile req w = (server_error, w).
Proof.
  intros Hs. unfold post_update_profile. by rewrite upload_fields_eq, Hs.
Qed.

Lemma post_update_profile_storable (req : Req.t) (w : world) :
  storable req w = true →
  post_update_profile req w =
  update_profile req (set_fs w (written req ∪ fs w)).
Proof.
  intros Hs. unfold post_update_profile. by rewrite upload_fields_eq, Hs.
Qed.

Lemma post_update_profile_no_files (req : Req.t) (w : world) :
  Req.profilePic req = None → Req.profilePic2 req = None →
  Req.resumePdf req = None → Req.video req = None →
  post_update_profile req w = update_profile req w.
Proof.
  intros H1 H2 H3 H4. unfold post_update_profile.
  by rewrite upload_fields_no_files.
Qed.

(** A request that is refused once its parts are stored. *)
Lemma post_update_profile_refused (req : Req.t) (w : world) :
  storable req w = true →
  truthy (Req.user req) = false ∨ truthy (Req.name req) = false →
  post_update_profile req w =
    (if truthy (Req.user req)
     then {| status := 400; json := Message "Name is required" |}
     else {| status := 401; json := Message "Unauthorized: Missing user ID" |},
     set_fs w (written req ∪ fs w)).
Proof.
  intros Hs Hbad. rewrite post_update_profile_storable by done.
  destruct (truthy (Req.user req)) eqn:Hu.
  - destruct Hbad as [?|Hn]; [done|].
    by rewrite update_profile_rejected, Hu.
  - by rewrite update_profile_unauthorized.
Qed.

(** A valid request whose parts are stored: the profile and the user are
    saved unless a reclamation throws. *)
Lemma post_update_profile_valid (req : Req.t) (w : world) (userId name : string) :
  Req.user req = Some userId → userId ≠ "" →
  Req.name req = Some name → name ≠ "" →
  storable req w = true →
  ∃ D, D ⊆ from_option (superseded req) ∅ (Profiles w !! userId) ∧
    fs (post_update_profile req w).2 = (written req ∪ fs w) ∖ D ∧
    dirs (post_update_profile req w).2 = dirs w ∧
    Educations (post_update_profile req w).2 = Educations w ∧
    Experiences (post_update_profile req w).2 = Experiences w ∧
    next_id (post_update_profile req w).2 = next_id w ∧
    ((reclaimable req w userId ∧
      D = from_option (superseded req) ∅ (Profiles w !! userId) ∧
      (post_update_profile req w).1 =
        {| status := 200;
           json := Saved "Profile saved successfully"
                     (saved req userId name (Profiles w !! userId)) |} ∧
      Profiles (post_update_profile req w).2 =
        <[userId := saved req userId name (Profiles w !! userId)]> (Profiles w) ∧
      Users (post_update_profile req w).2 = users_after req userId name (Users w)) ∨
     (¬ reclaimable req w userId ∧
      (post_update_profile req w).1 = server_error ∧
      Profiles (post_update_profile req w).2 = Profiles w ∧
      Users (post_update_profile req w).2 = Users w)).
Proof.
  intros Hu Hune Hn Hnne Hs. rewrite post_update_profile_storable by done.
  assert (Huser : js_or (Req.user req) None = Some userId)
    by by apply js_or_None_Some.
  assert (Hname : js_or (Req.name req) None = Some name)
    by by apply js_or_None_Some.
  set (w1 := set_fs w (written req ∪ fs w)).
  unfold reclaimable. destruct (Profiles w !! userId) as [p|] eqn:Hp.
  - destruct (update_profile_existing req w1 userId name p Huser Hname Hp)
      as (D & HD & Hfs & Hdirs & HE & HX & HN & Hcase).
    exists D. split_and!; [done..|].
    destruct Hcase as [(Hclear & -> & Hres & HP & HU)|(Hdir & Hres & HP & HU)].
    + left. split_and!; [|done..]. by intros p' [= <-].
    + right. split_and!; [|done..]. intros Hall. apply Hdir.
      by apply (Hall p).
  - destruct (update_profile_fresh req w1 userId name Huser Hname Hp)
      as (Hres & Hfs & Hdirs & HP & HU & HE & HX & HN).
    exists ∅. split_and!; [done|rewrite Hfs; simpl; set_solver|done..|].
    left. by split_and!.
Qed.

(** Every request falls under one of the three lemmas before. *)
Lemma request_cases (req : Req.t) (w : world) :
  storable req w = false ∨
  (storable req w = true ∧
   (truthy (Req.user req) = false ∨ truthy (Req.name req) = false)) ∨
  (storable req w = true ∧
   ∃ userId name, Req.user req = Some userId ∧ userId ≠ "" ∧
                  Req.name req = Some name ∧ name ≠ "").
Proof.
  destruct (storable req w); [right|by left].
  destruct (js_or_None_cases (Req.user req)) as [[Hu _]|(userId & Hu & Hune & _)];
    [left; auto|].
  destruct (js_or_None_cases (Req.name req)) as [[Hn _]|(name & Hn & Hnne & _)];
    [left; auto|].
  right. split; [done|]. by exists userId, name.
Qed.

(** C4. A valid update of an existing profile that carries no file answers
    200 with the saved profile, and the four path fields of the persisted
    profile are the ones it had before; the file store is untouched too. *)
Theorem update_without_files_preserves_paths (req : Req.t) (w : world)
    (userId name : string) (p : Profile.t) :
  Req.user req = Some userId → userId ≠ "" →
  Req.name req = Some name → name ≠ "" →
  Req.profilePic req = None → Req.profilePic2 req = None →
  Req.resumePdf req = None → Req.video req = None →
  Profiles w !! userId = Some p →
  ∃ p',
    (post_update_profile req w).1 =
      {| status := 200; json := Saved "Profile saved successfully" p' |} ∧
    Profiles (post_update_profile req w).2 !! userId = Some p' ∧
    Profile.profilePic p' = Profile.profilePic p ∧
    Profile.profilePic2 p' = Profile.profilePic2 p ∧
    Profile.pdf p' = Profile.pdf p ∧
    Profile.video p' = Profile.video p ∧
    fs (post_update_profile req w).2 = fs w.
Proof.
  intros Hu Hune Hn Hnne H1 H2 H3 H4 Hp.
  rewrite post_update_profile_no_files by done.
  assert (Huser : js_or (Req.user req) None = Some userId)
    by by apply js_or_None_Some.
  assert (Hname : js_or (Req.name req) None = Some name)
    by by apply js_or_None_Some.
  assert (Hnone : superseded req p = ∅).
  { unfold superseded. rewrite H1, H2, H3, H4. set_solver. }
  destruct (update_profile_existing req w userId name p Huser Hname Hp)
    as (D & HD & Hfs & _ & _ & _ & _ & Hcase).
  destruct Hcase as [(_ & -> & Hres & HP & _)|(Hdir & _)].
  - exists (merged req name p). split_and!; [done| | | | | |].
    + rewrite HP. apply lookup_insert_eq.
    + simpl. by rewrite H1.
    + simpl. by rewrite H2.
    + simpl. by rewrite H3.
    + simpl. by rewrite H4.
    + rewrite Hfs, Hnone. set_solver.
  - destruct Hdir. unfold no_directory. rewrite Hnone. apply set_Forall_empty.
Qed.

Lemma update_without_files_preserves_paths_witness :
  ∃ p',
    (post_update_profile blank_update ann_world).1 =
      {| status := 200; json := Saved "Profile saved successfully" p' |} ∧
    Profiles (post_update_profile blank_update ann_world).2 !! "u1" = Some p' ∧
    Profile.profilePic p' = Profile.profilePic ann_profile ∧
    Profile.profilePic2 p' = Profile.profilePic2 ann_profile ∧
    Profile.pdf p' = Profile.pdf ann_profile ∧
    Profile.video p' = Profile.video ann_profile ∧
    fs (post_update_profile blank_update ann_world).2 = fs ann_world.
Proof.
  apply (update_without_files_preserves_paths blank_update ann_world
           "u1" "Ann B" ann_profile);
    try reflexivity; discriminate.
Defined.



(** C10. The merge is by truthiness. On a valid update, an incoming
    [aboutText] that is absent or the empty string leaves the stored
    [aboutText] of an existing profile as it was, and the same holds for
    each of the five user-owned fields of an existing user; whatever the
    request carries, a stored non-empty value never becomes empty or
    absent. *)
Theorem merge_keeps_value_on_falsy_input (req : Req.t) (w : world)
    (userId name : string) :
  Req.user req = Some userId → userId ≠ "" →
  Req.name req = Some name → name ≠ "" →
  (∀ p, Profiles w !! userId = Some p →
     ∃ p', Profiles (post_update_profile req w).2 !! userId = Some p' ∧
       (truthy (Req.aboutText req) = false →
          Profile.aboutText p' = Profile.aboutText p) ∧
       (truthy (Profile.aboutText p) = true →
          truthy (Profile.aboutText p') = true)) ∧
  (∀ u, Users w !! userId = Some u →
     ∃ u', Users (post_update_profile req w).2 !! userId = Some u' ∧
       (truthy (Req.phoneNumber req) = false →
          User.phoneNumber u' = User.phoneNumber u) ∧
       (truthy (Req.degree req) = false → User.degree u' = User.degree u) ∧
       (truthy (Req.birthday req) = false → User.birthday u' = User.birthday u) ∧
       (truthy (Req.address req) = false → User.address u' = User.address u) ∧
       (truthy (Req.experience req) = false →
          User.experience u' = User.experience u) ∧
       (truthy (User.phoneNumber u) = true → truthy (User.phoneNumber u') = true) ∧
       (truthy (User.degree u) = true → truthy (User.degree u') = true) ∧
       (truthy (User.birthday u) = true → truthy (User.birthday u') = true) ∧
       (truthy (User.address u) = true → truthy (User.address u') = true) ∧
       (truthy (User.experience u) = true → truthy (User.experience u') = true)).
Proof.
  intros Hu Hune Hn Hnne.
  assert (Hkeep : ∀ a b, truthy b = true → truthy (js_or a b) = true).
  { intros a b Hb. unfold js_or. by destruct (truthy a) eqn:Ha. }
  assert (Hcases :
    (Profiles (post_update_profile req w).2 = Profiles w ∧
     Users (post_update_profile req w).2 = Users w) ∨
    (Profiles (post_update_profile req w).2 =
       <[userId := saved req userId name (Profiles w !! userId)]> (Profiles w) ∧
     Users (post_update_profile req w).2 = users_after req userId name (Users w))).
  { destruct (storable req w) eqn:Hs.
    - destruct (post_update_profile_valid req w userId name Hu Hune Hn Hnne Hs)
        as (D & _ & _ & _ & _ & _ & _ & [(_ & _ & _ & HP & HU)|(_ & _ & HP & HU)]);
        auto.
    - left. by rewrite post_update_profile_unstorable. }
  split.
  - intros p Hp. destruct Hcases as [[-> _]|[-> _]].
    + exists p. by split_and!.
    + rewrite Hp. exists (merged req name p). split; [apply lookup_insert_eq|].
      simpl. split; [apply js_or_falsy | apply Hkeep].
  - intros u Hus. destruct Hcases as [[_ ->]|[_ ->]].
    + exists u. by split_and!.
    + unfold users_after. rewrite Hus.
      exists (update_user req name u). split; [apply lookup_insert_eq|].
      simpl. split_and!; solve [apply js_or_falsy | apply Hkeep].
Qed.

Lemma merge_keeps_value_on_falsy_input_witness :
  ∃ p' u',
    Profiles (post_update_profile blank_update ann_world).2 !! "u1" = Some p' ∧
    Users (post_update_profile blank_update ann_world).2 !! "u1" = Some u' ∧
    Profile.aboutText p' = Some "Hello" ∧
    User.phoneNumber u' = Some "555" ∧
    User.degree u' = Some "BSc" ∧
    User.birthday u' = None ∧
    User.address u' = Some "Main St" ∧
    User.experience u' = Some "5 years".
Proof.
  destruct (merge_keeps_value_on_falsy_input blank_update ann_world "u1" "Ann B")
    as [Hprofile Huser]; try reflexivity; try discriminate.
  destruct (Hprofile ann_profile) as (p' & Hp' & Habout & _); [reflexivity|].
  destruct (Huser ann_user)
    as (u' & Hu' & Hphone & Hdegree & Hbirthday & Haddress & Hexp & _);
    [reflexivity|].
  exists p', u'. split_and!; [done|done| | | | | |].
  - by rewrite Habout.
  - by rewrite Hphone.
  - by rewrite Hdegree.
  - by rewrite Hbirthday.
  - by rewrite Haddress.
  - by rewrite Hexp.
Defined.

(** ** Rejected updates *)

(** C5, as stated, fails: the upload middleware has stored the attached
    picture by the time the handler refuses the request. *)
Lemma rejected_update_stores_upload : ¬ rejected_update_writes_nothing.
Proof.
  intros Hclaim.
  destruct (Hclaim nameless_upload ann_world) as [_ Hworld]; [reflexivity|].
  apply (f_equal fs) in Hworld.
  assert (Hin : "uploads/images/2-me.png" ∈ fs ann_world).
  { rewrite <- Hworld.
    rewrite post_update_profile_refused by (by right || reflexivity).
    cbn [snd]. rewrite set_fs_fs.
    apply elem_of_union_l. unfold written. simpl.
    apply elem_of_union_l. by apply elem_of_singleton. }
  simpl in Hin. apply elem_of_union in Hin as [Hin|Hin];
    apply elem_of_singleton in Hin; discriminate Hin.
Qed.

(** C5, amended. On an update whose name is empty or absent the handler
    writes nothing: no profile, user, education or experience record
    changes, no folder changes and no file is deleted. When every attached
    part can be written to its bucket, the request is answered 400 (401
    when no caller was resolved) and the file store differs from the one
    before exactly by the files the upload middleware stored for the parts.
    When a part cannot be written (its bucket folder is missing, as for
    [uploads/others], or a folder has its name), the upload fails before
    the handler runs: the answer is 500 and the whole world is as it was.
    A request without files is answered 400 or 401 with the world as it
    was. *)
Theorem rejected_update_keeps_records (req : Req.t) (w : world) :
  truthy (Req.name req) = false →
  records (post_update_profile req w).2 = records w ∧
  dirs (post_update_profile req w).2 = dirs w ∧
  fs w ⊆ fs (post_update_profile req w).2 ∧
  (storable req w = true →
   (post_update_profile req w).1 =
     (if truthy (Req.user req)
      then {| status := 400; json := Message "Name is required" |}
      else {| status := 401; json := Message "Unauthorized: Missing user ID" |}) ∧
   fs (post_update_profile req w).2 = written req ∪ fs w) ∧
  (storable req w = false →
   (post_update_profile req w).1 = server_error ∧
   (post_update_profile req w).2 = w) ∧
  (Req.profilePic req = None → Req.profilePic2 req = None →
   Req.resumePdf req = None → Req.video req = None →
   (post_update_profile req w).1 =
     (if truthy (Req.user req)
      then {| status := 400; json := Message "Name is required" |}
      else {| status := 401; json := Message "Unauthorized: Missing user ID" |}) ∧
   (post_update_profile req w).2 = w).
Proof.
  intros Hname.
  destruct (storable req w) eqn:Hs.
  - rewrite post_update_profile_refused by auto. cbn [fst snd].
    split_and!; [done|done|rewrite set_fs_fs; set_solver|done|done|].
    intros H1 H2 H3 H4. split; [done|].
    assert (Hw : written req ∪ fs w = fs w)
      by (unfold written; rewrite H1, H2, H3, H4; set_solver).
    rewrite Hw. apply set_fs_same.
  - rewrite post_update_profile_unstorable by done. cbn [fst snd].
    split_and!; [done|done|done|done|done|].
    intros H1 H2 H3 H4. by rewrite storable_no_files in Hs.
Qed.

Lemma rejected_update_keeps_records_witness :
  (post_update_profile nameless_upload ann_world).1 =
    {| status := 400; json := Message "Name is required" |} ∧
  records (post_update_profile nameless_upload ann_world).2 = records ann_world ∧
  fs (post_update_profile nameless_upload ann_world).2 =
    {["uploads/images/2-me.png"]} ∪ fs ann_world.
Proof.
  destruct (rejected_update_keeps_records nameless_upload ann_world)
    as (Hrec & _ & _ & Hstored & _); [reflexivity|].
  destruct Hstored as [Hres Hfs]; [reflexivity|].
  split_and!; [exact Hres | exact Hrec |].
  rewrite Hfs. reflexivity.
Defined.

(** ** Stored paths against the places files are written to *)

(** C1. The handler builds the stored path from the slot, the disk storage
    chooses the bucket from the media type. For a PDF sent in the
    primary-picture slot the update succeeds, the file is written under
    [uploads/pdfs], and the profile is saved with a path under
    [/uploads/images] at which there is no file. *)
Theorem picture_path_of_pdf_upload_dangles :
  let f := {| mimetype := "application/pdf"; originalname := "cv.pdf"; now := 2 |} in
  let res := (post_update_profile pdf_as_picture ann_world).1 in
  let w' := (post_update_profile pdf_as_picture ann_world).2 in
  Req.profilePic pdf_as_picture = Some f ∧
  status res = 200 ∧
  stored_at f = "uploads/pdfs/2-cv.pdf" ∧
  stored_at f ∈ fs w' ∧
  ∃ p', json res = Saved "Profile saved successfully" p' ∧
        Profiles w' !! "u2" = Some p' ∧
        Profile.profilePic p' = Some "/uploads/images/2-cv.pdf" ∧
        normalize "/uploads/images/2-cv.pdf" = "uploads/images/2-cv.pdf" ∧
        normalize "/uploads/images/2-cv.pdf" ≠ stored_at f ∧
        normalize "/uploads/images/2-cv.pdf" ∉ fs w'.
Proof.
  intros f res w'.
  split_and!; [reflexivity | reflexivity | reflexivity | by_evaluation |].
  eexists. split_and!; [reflexivity | by vm_compute | reflexivity | reflexivity
                        | discriminate | by_evaluation].
Qed.

(** C2. With a picture already on the profile, the same upload deletes the
    prior picture and answers with a profile whose picture path names no
    file: the new file lies in the pdfs bucket. *)
Theorem replaced_picture_path_dangles :
  let f := {| mimetype := "application/pdf"; originalname := "cv.pdf"; now := 2 |} in
  let res := (post_update_profile pdf_over_picture ann_world).1 in
  let w' := (post_update_profile pdf_over_picture ann_world).2 in
  Req.profilePic pdf_over_picture = Some f ∧
  Profiles ann_world !! "u1" = Some ann_profile ∧
  Profile.profilePic ann_profile = Some "/uploads/images/1-old.png" ∧
  normalize "/uploads/images/1-old.png" ∈ fs ann_world ∧
  status res = 200 ∧
  (normalize "/uploads/images/1-old.png" ∉ fs w') ∧
  stored_at f ∈ fs w' ∧
  ∃ p', json res = Saved "Profile saved successfully" p' ∧
        Profiles w' !! "u1" = Some p' ∧
        Profile.profilePic p' = Some "/uploads/images/2-cv.pdf" ∧
        normalize "/uploads/images/2-cv.pdf" ≠ stored_at f ∧
        normalize "/uploads/images/2-cv.pdf" ∉ fs w'.
Proof.
  intros f res w'.
  split_and!; [reflexivity | by vm_compute | reflexivity | by_evaluation
               | reflexivity | by_evaluation | by_evaluation |].
  eexists. split_and!; [reflexivity | by vm_compute | reflexivity
                        | discriminate | by_evaluation].
Qed.

(** The sibling case: when the media type is the one the slot expects, the
    stored path resolves to the place the file was written to. *)
Lemma normalize_leading_slash (s : string) :
  normalize ("/" +:+ s) = normalize s.
Proof.
  unfold normalize. rewrite append_cons, append_empty_l.
  assert (Hsplit : split_slash "" (String "/" s) = "" :: split_slash "" s)
    by reflexivity.
  rewrite Hsplit. cbn [fold_left].
  assert (Hpush : push_segment [] "" = []) by reflexivity.
  rewrite Hpush.
  destruct s as [|c s]; [reflexivity|]. reflexivity.
Qed.

Lemma matching_type_path_resolves (f : file) :
  (String.prefix "image/" (mimetype f) = true →
     normalize ("/uploads/images/" +:+ filename f) = stored_at f) ∧
  (mimetype f = "application/pdf" →
     normalize ("/uploads/pdfs/" +:+ filename f) = stored_at f) ∧
  (String.prefix "video/" (mimetype f) = true →
     normalize ("/uploads/videos/" +:+ filename f) = stored_at f).
Proof.
  unfold stored_at. split_and!; intros H.
  - rewrite (destination_image f H).
    apply (normalize_leading_slash ("uploads/images/" +:+ _)).
  - rewrite (destination_pdf f H).
    apply (normalize_leading_slash ("uploads/pdfs/" +:+ _)).
  - rewrite (destination_video f H).
    apply (normalize_leading_slash ("uploads/videos/" +:+ _)).
Qed.
(** ** Repeatable-Record Replacer *)

Lemma with_user_lookup (userId : string) (e : value) (k : string) :
  k ≠ "userId" → with_user userId e !! k = spread e !! k.
Proof. intros Hk. unfold with_user. by rewrite lookup_insert_ne. Qed.

Lemma with_user_owner (userId : string) (e : value) :
  with_user userId e !! "userId" = Some (VStr userId).
Proof. unfold with_user. apply lookup_insert_eq. Qed.

Lemma forallb_false_Exists {A} (f : A → bool) (l : list A) :
  Exists (λ x, f x = false) l → forallb f l = false.
Proof.
  induction 1 as [x l Hx|x l _ IH]; simpl.
  - by rewrite Hx.
  - rewrite IH. apply andb_false_r.
Qed.

Lemma forallb_true_Forall {A} (f : A → bool) (l : list A) :
  Forall (λ x, f x = true) l → forallb f l = true.
Proof. induction 1 as [|x l Hx _ IH]; simpl; [done|]. by rewrite Hx, IH. Qed.

(** An entry that lacks a required property fails the check. *)
Lemma missing_field_incomplete (required : list string) (userId : string)
    (e : value) (k : string) :
  k ∈ required → k ≠ "userId" → spread e !! k = None →
  complete required (with_user userId e) = false.
Proof.
  intros Hk Hne Hmissing. unfold complete.
  apply forallb_false_Exists, Exists_exists. exists k. split; [done|].
  unfold prop_truthy. by rewrite with_user_lookup, Hmissing.
Qed.

(** A submission with an incomplete entry is refused before the delete. *)
Lemma add_records_rejects schema (required : list string)
    (format_error required_error userId : string) (newData : value)
    (entries : list value) (coll : list doc) (next : nat) :
  to_array newData = Some entries →
  Exists (λ e, complete required (with_user userId e) = false) entries →
  add_records schema required format_error required_error
    (Some userId) newData coll next =
  ({| status := 400; json := Error required_error |}, coll, next).
Proof.
  intros Harr Hbad. unfold add_records. rewrite Harr.
  rewrite forallb_false_Exists; [done|]. by apply Exists_fmap.
Qed.

Lemma insertMany_fields schema (docs : list (gmap string value)) (next : nat)
    (inserted : list doc) :
  insertMany schema docs next = Some inserted →
  mapM schema docs = Some (doc_fields <$> inserted).
Proof.
  unfold insertMany. destruct (mapM schema docs) as [stored|]; [|done].
  intros [= <-]. f_equal. rewrite fmap_imap.
  rewrite (imap_ext _ (const id)) by done.
  by rewrite imap_const, list_fmap_id.
Qed.

(** A complete submission the schema accepts: delete, then insert. *)
Lemma add_records_accepts schema (required : list string)
    (format_error required_error userId : string) (newData : value)
    (entries : list value) (coll : list doc) (next : nat) :
  to_array newData = Some entries →
  Forall (λ e, complete required (with_user userId e) = true) entries →
  Forall (λ e, schema (with_user userId e) = Some (with_user userId e)) entries →
  ∃ inserted,
    add_records schema required format_error required_error
      (Some userId) newData coll next =
    ({| status := 200; json := Docs inserted |},
     deleteMany userId coll ++ inserted, next + length inserted) ∧
    doc_fields <$> inserted = with_user userId <$> entries.
Proof.
  intros Harr Hok Hschema. unfold add_records. rewrite Harr.
  rewrite forallb_true_Forall by by apply Forall_fmap.
  assert (Hstored : mapM schema (with_user userId <$> entries) =
                    Some (with_user userId <$> entries)).
  { apply mapM_Some_2, Forall_Forall2_diag. by apply Forall_fmap. }
  destruct (insertMany schema (with_user userId <$> entries) next)
    as [inserted|] eqn:Hins.
  - exists inserted. split; [done|].
    apply insertMany_fields in Hins. rewrite Hstored in Hins. by injection Hins.
  - unfold insertMany in Hins. by rewrite Hstored in Hins.
Qed.

Lemma education_fields_not_owner (k : string) :
  k ∈ education_fields → k ≠ "userId".
Proof.
  unfold education_fields. rewrite !elem_of_cons, elem_of_nil.
  intros [->|[->|[->|[->|[]]]]]; discriminate.
Qed.

Lemma experience_fields_not_owner (k : string) :
  k ∈ experience_fields → k ≠ "userId".
Proof.
  unfold experience_fields. rewrite !elem_of_cons, elem_of_nil.
  intros [->|[->|[->|[->|[]]]]]; discriminate.
Qed.

Lemma missing_some_incomplete (required : list string) (userId : string)
    (entries : list value) :
  (∀ k, k ∈ required → k ≠ "userId") →
  Exists (λ e, ∃ k, k ∈ required ∧ spread e !! k = None) entries →
  Exists (λ e, complete required (with_user userId e) = false) entries.
Proof.
  intros Hreq Hex. eapply Exists_impl; [exact Hex|].
  intros e (k & Hk & Hmissing).
  eapply missing_field_incomplete; eauto.
Qed.

Section SchemaProperties.

Variable EducationSchema : gmap string value → option (gmap string value).
Variable ExperienceSchema : gmap string value → option (gmap string value).

(** C3. A submission by a resolved caller in which some entry lacks one
    of the four required fields of its kind is answered 400 with the
    validation error, and the world, the caller's existing entries
    included, is exactly as before: the check of every entry precedes the
    delete. *)
Theorem incomplete_submission_rejected (req : json_request) (w : world)
    (userId : string) (entries : list value) :
  req_user req = Some userId →
  to_array (req_body req) = Some entries →
  (Exists (λ e, ∃ k, k ∈ education_fields ∧ spread e !! k = None) entries →
     add_education EducationSchema req w =
     ({| status := 400;
         json := Error "Each education object must include degreeName, collegeName, fromYear, and toYear" |},
      w)) ∧
  (Exists (λ e, ∃ k, k ∈ experience_fields ∧ spread e !! k = None) entries →
     add_experience ExperienceSchema req w =
     ({| status := 400;
         json := Error "Each Experience object must include Disignation, Company Name and Time." |},
      w)).
Proof.
  intros Huser Harr. split; intros Hmissing.
  - unfold add_education. rewrite Huser.
    erewrite add_records_rejects; [by destruct w|done|].
    by apply missing_some_incomplete; [apply education_fields_not_owner|].
  - unfold add_experience. rewrite Huser.
    erewrite add_records_rejects; [by destruct w|done|].
    by apply missing_some_incomplete; [apply experience_fields_not_owner|].
Qed.

(** C7. After a valid education submission that the schema stores as
    given, the listing is the entries of the other owners, untouched,
    followed by the submitted entries, each stamped with the caller's id;
    no earlier entry of the caller is left. *)
Theorem education_round_trip (req : json_request) (w : world)
    (userId : string) (entries : list value) :
  req_user req = Some userId →
  to_array (req_body req) = Some entries →
  Forall (λ e, complete education_fields (with_user userId e) = true) entries →
  Forall (λ e, EducationSchema (with_user userId e) = Some (with_user userId e))
    entries →
  ∃ inserted,
    (add_education EducationSchema req w).1 =
      {| status := 200; json := Docs inserted |} ∧
    doc_fields <$> inserted = with_user userId <$> entries ∧
    get_education (add_education EducationSchema req w).2 =
      {| status := 200;
         json := Docs (filter (λ d, owned_by userId d = false) (Educations w)
                       ++ inserted) |} ∧
    Forall (λ d, owned_by userId d = true) inserted ∧
    (∀ d, d ∈ Educations (add_education EducationSchema req w).2 →
          owned_by userId d = true → d ∈ inserted) ∧
    (∀ d, d ∈ Educations w → owned_by userId d = false →
          d ∈ Educations (add_education EducationSchema req w).2).
Proof.
  intros Huser Harr Hok Hschema.
  destruct (add_records_accepts EducationSchema education_fields
              "Invalid education data format"
              "Each education object must include degreeName, collegeName, fromYear, and toYear"
              userId (req_body req) entries (Educations w) (next_id w)
              Harr Hok Hschema) as (inserted & Hrun & Hfields).
  exists inserted. unfold add_education, get_education.
  rewrite Huser, Hrun. cbn [fst snd Educations].
  assert (Howned : Forall (λ d, owned_by userId d = true) inserted).
  { apply Forall_forall. intros d Hd.
    apply (list_elem_of_fmap_2 doc_fields) in Hd. rewrite Hfields in Hd.
    apply list_elem_of_fmap in Hd as (e & Hde & _).
    unfold owned_by. rewrite Hde, with_user_owner.
    apply String.eqb_refl. }
  split_and!; [done|done|done|done| |].
  - intros d [Hd|Hd]%elem_of_app Hown; [|done].
    apply list_elem_of_filter in Hd as [Hnot _]. congruence.
  - intros d Hd Hnot. apply elem_of_app. left.
    by apply list_elem_of_filter.
Qed.

End SchemaProperties.

(** Without a resolved caller the handler throws on [req.user.id] and
    answers 500; nothing is deleted. *)
Lemma add_records_unauthenticated schema (required : list string)
    (format_error required_error : string) (newData : value)
    (entries : list value) (coll : list doc) (next : nat) :
  to_array newData = Some entries →
  add_records schema required format_error required_error None newData coll next
  = ({| status := 500; json := ServerError |}, coll, next).
Proof. intros Harr. unfold add_records. by rewrite Harr. Qed.

(** When the schema refuses a document the caller's earlier entries are
    already deleted and nothing is inserted. *)
Example refused_insert_loses_entries :
  let res := add_education (λ _, None)
               {| req_user := Some "u1"; req_body := bsc_entry |} school_world in
  status res.1 = 500 ∧ doc_id <$> Educations res.2 = [1].
Proof. split; reflexivity. Qed.

Lemma incomplete_submission_rejected_witness :
  add_education stores_as_given
    {| req_user := Some "u1"; req_body := VArr [bsc_entry; open_ended_entry] |}
    school_world =
  ({| status := 400;
      json := Error "Each education object must include degreeName, collegeName, fromYear, and toYear" |},
   school_world).
Proof.
  apply (incomplete_submission_rejected stores_as_given stores_as_given
           {| req_user := Some "u1";
              req_body := VArr [bsc_entry; open_ended_entry] |}
           school_world "u1" [bsc_entry; open_ended_entry]);
    [reflexivity | reflexivity |].
  apply Exists_cons_tl, Exists_cons_hd.
  exists "toYear". split; [by_evaluation | by vm_compute].
Defined.

Lemma education_round_trip_witness :
  ∃ inserted,
    get_education
      (add_education stores_as_given
         {| req_user := Some "u1"; req_body := VArr [bsc_entry] |}
         school_world).2 =
    {| status := 200;
       json := Docs (filter (λ d, owned_by "u1" d = false) (Educations school_world)
                     ++ inserted) |} ∧
    doc_fields <$> inserted = [with_user "u1" bsc_entry].
Proof.
  destruct (education_round_trip stores_as_given
              {| req_user := Some "u1"; req_body := VArr [bsc_entry] |}
              school_world "u1" [bsc_entry])
    as (inserted & _ & Hfields & Hlisting & _);
    [reflexivity | reflexivity | | | by exists inserted].
  - constructor; [by vm_compute | constructor].
  - constructor; [reflexivity | constructor].
Defined.

(** ** Reclamation when the media type is the one the slot expects *)

Lemma filename_nonempty (f : file) : nonempty (filename f) = true.
Proof. unfold filename. by destruct (pretty (now f)). Qed.

Lemma uploaded_Some (f : file) : uploaded (Some f) = Some (filename f).
Proof.
  unfold uploaded. apply js_or_truthy. simpl. apply filename_nonempty.
Qed.

Lemma path_or_uploaded (prefix : string) (f : file) (otherwise : option string) :
  path_or prefix (uploaded (Some f)) otherwise = Some (prefix +:+ filename f).
Proof. rewrite uploaded_Some. simpl. by rewrite filename_nonempty. Qed.

Lemma reclaimable_fresh (req : Req.t) (w : world) (userId : string) :
  Profiles w !! userId = None → reclaimable req w userId.
Proof. intros Hp p. by rewrite Hp. Qed.

Lemma written_no_files (req : Req.t) :
  Req.profilePic req = None → Req.profilePic2 req = None →
  Req.resumePdf req = None → Req.video req = None →
  written req = ∅.
Proof. unfold written. by intros -> -> -> ->. Qed.

Lemma superseded_no_files (req : Req.t) (p : Profile.t) :
  Req.profilePic req = None → Req.profilePic2 req = None →
  Req.resumePdf req = None → Req.video req = None →
  superseded req p = ∅.
Proof.
  unfold superseded. intros -> -> -> ->.
  rewrite !stale_not_uploaded by done. set_solver.
Qed.

Lemma reclaimable_no_files (req : Req.t) (w : world) (userId : string) :
  Req.profilePic req = None → Req.profilePic2 req = None →
  Req.resumePdf req = None → Req.video req = None →
  reclaimable req w userId.
Proof.
  intros H1 H2 H3 H4 p _. unfold no_directory.
  rewrite superseded_no_files by done. apply set_Forall_empty.
Qed.

(** A valid update that goes through: every part can be written and no
    superseded path is a directory. *)
Lemma post_update_profile_ok (req : Req.t) (w : world) (userId name : string) :
  Req.user req = Some userId → userId ≠ "" →
  Req.name req = Some name → name ≠ "" →
  storable req w = true → reclaimable req w userId →
  (post_update_profile req w).1 =
    {| status := 200;
       json := Saved "Profile saved successfully"
                 (saved req userId name (Profiles w !! userId)) |} ∧
  Profiles (post_update_profile req w).2 =
    <[userId := saved req userId name (Profiles w !! userId)]> (Profiles w) ∧
  Users (post_update_profile req w).2 = users_after req userId name (Users w) ∧
  Educations (post_update_profile req w).2 = Educations w ∧
  Experiences (post_update_profile req w).2 = Experiences w ∧
  next_id (post_update_profile req w).2 = next_id w ∧
  dirs (post_update_profile req w).2 = dirs w ∧
  fs (post_update_profile req w).2 =
    (written req ∪ fs w) ∖ from_option (superseded req) ∅ (Profiles w !! userId).
Proof.
  intros Hu Hune Hn Hnne Hs Hr.
  destruct (post_update_profile_valid req w userId name Hu Hune Hn Hnne Hs)
    as (D & _ & Hfs & Hdirs & HE & HX & HN &
        [(_ & -> & Hres & HP & HU)|(Hdir & _)]); [|done].
  by split_and!.
Qed.

(** A valid update that sends an image into the primary-picture slot of a
    profile that already has a picture, and goes through: the prior target
    is gone, the saved path resolves to the place the new file was written
    to, and the new file is there unless it was written over one of the
    prior targets. *)
Lemma matching_picture_replaced (req : Req.t) (w : world)
    (userId name old : string) (p : Profile.t) (f : file) :
  Req.user req = Some userId → userId ≠ "" →
  Req.name req = Some name → name ≠ "" →
  storable req w = true → reclaimable req w userId →
  Profiles w !! userId = Some p →
  Req.profilePic req = Some f →
  String.prefix "image/" (mimetype f) = true →
  Profile.profilePic p = Some old → old ≠ "" →
  let w' := (post_update_profile req w).2 in
  (normalize old ∉ fs w') ∧
  ∃ p', Profiles w' !! userId = Some p' ∧
        Profile.profilePic p' = Some ("/uploads/images/" +:+ filename f) ∧
        normalize ("/uploads/images/" +:+ filename f) = stored_at f ∧
        (stored_at f ∉
           stale (uploaded (Req.profilePic req)) (Profile.profilePic p) ∪
           stale (uploaded (Req.profilePic2 req)) (Profile.profilePic2 p) ∪
           stale (uploaded (Req.resumePdf req)) (Profile.pdf p) ∪
           stale (uploaded (Req.video req)) (Profile.video p) →
         stored_at f ∈ fs w').
Proof.
  intros Hu Hune Hn Hnne Hs Hr Hp Hf Himage Hold Holdne w'. subst w'.
  destruct (post_update_profile_ok req w userId name Hu Hune Hn Hnne Hs Hr)
    as (_ & HP & _ & _ & _ & _ & _ & Hfs).
  rewrite Hp in HP, Hfs. cbn [from_option saved] in HP, Hfs.
  rewrite Hfs.
  assert (Hstale : normalize old ∈
            stale (uploaded (Req.profilePic req)) (Profile.profilePic p)).
  { rewrite Hf, Hold, uploaded_Some. unfold stale. simpl.
    rewrite filename_nonempty. apply nonempty_true in Holdne.
    rewrite Holdne. simpl. by apply elem_of_singleton. }
  split; [unfold superseded; set_solver|].
  exists (merged req name p). split_and!.
  - rewrite HP. apply lookup_insert_eq.
  - simpl. rewrite Hf. apply path_or_uploaded.
  - by apply matching_type_path_resolves.
  - intros Hfresh. apply elem_of_difference. split; [|done].
    apply elem_of_union_l. unfold written. rewrite Hf. simpl.
    apply elem_of_union_l. by apply elem_of_singleton.
Qed.

(** * Further properties of the code *)

(** ** Generated names *)

Lemma all_chars_app (P : ascii → bool) (s t : string) :
  all_chars P (s +:+ t) = all_chars P s && all_chars P t.
Proof.
  induction s as [|c s IH]; [done|].
  rewrite append_cons. simpl. by rewrite IH, andb_assoc.
Qed.

Lemma all_chars_impl (P Q : ascii → bool) (s : string) :
  (∀ c, P c = true → Q c = true) →
  all_chars P s = true → all_chars Q s = true.
Proof.
  intros HPQ. induction s as [|c s IH]; [done|]. simpl.
  intros [Hc Hs]%andb_true_iff. by rewrite (HPQ c Hc), IH.
Qed.

Lemma pretty_N_char_digit (x : N) : is_digit (pretty_N_char x) = true.
Proof. unfold pretty_N_char. by repeat case_match. Qed.

Lemma pretty_N_go_digits (x : N) (s : string) :
  all_chars is_digit s = true → all_chars is_digit (pretty_N_go x s) = true.
Proof.
  revert s. induction (N.lt_wf_0 x) as [x _ IH]. intros s Hs.
  destruct (decide (x = 0)%N) as [->|Hx]; [by rewrite pretty_N_go_0|].
  rewrite pretty_N_go_step by lia. apply IH.
  - apply N.div_lt; lia.
  - simpl. by rewrite pretty_N_char_digit, Hs.
Qed.

Lemma pretty_N_go_nonempty (x : N) (s : string) :
  nonempty s = true → nonempty (pretty_N_go x s) = true.
Proof.
  revert s. induction (N.lt_wf_0 x) as [x _ IH]. intros s Hs.
  destruct (decide (x = 0)%N) as [->|Hx]; [by rewrite pretty_N_go_0|].
  rewrite pretty_N_go_step by lia. apply IH; [apply N.div_lt; lia|done].
Qed.

(** The decimal form of a time stamp: digits only, and at least one. *)
Lemma pretty_N_digits (x : N) :
  all_chars is_digit (pretty x) = true ∧ nonempty (pretty x) = true.
Proof.
  unfold pretty, pretty_N. destruct (decide (x = 0)%N) as [->|Hx]; [done|].
  split; [by apply pretty_N_go_digits|].
  rewrite pretty_N_go_step by lia. by apply pretty_N_go_nonempty.
Qed.

Lemma replace_ws_not_space (in_run : bool) (s : string) :
  all_chars not_space (replace_ws in_run s) = true.
Proof.
  revert in_run. induction s as [|c s IH]; intros in_run; [done|]. simpl.
  destruct (is_space c) eqn:Hc.
  - destruct in_run; simpl; by rewrite IH.
  - simpl. unfold not_space at 1. by rewrite Hc, IH.
Qed.

Lemma replace_ws_fixed (in_run : bool) (s : string) :
  all_chars not_space s = true → replace_ws in_run s = s.
Proof.
  revert in_run. induction s as [|c s IH]; intros in_run; [done|]. simpl.
  intros [Hc Hs]%andb_true_iff. unfold not_space in Hc.
  apply negb_true_iff in Hc. rewrite Hc. by rewrite IH.
Qed.

Lemma replace_ws_length (in_run : bool) (s : string) :
  String.length (replace_ws in_run s) ≤ String.length s.
Proof.
  revert in_run. induction s as [|c s IH]; intros in_run; [done|]. simpl.
  destruct (is_space c).
  - destruct in_run; simpl; [specialize (IH true); lia|].
    specialize (IH true). lia.
  - simpl. specialize (IH false). lia.
Qed.

(** X1. The name the disk storage generates is never empty and never
    contains a white-space character, whatever the original name. *)
Theorem filename_has_no_white_space (f : file) :
  nonempty (filename f) = true ∧ all_chars not_space (filename f) = true.
Proof.
  unfold filename. destruct (pretty_N_digits (now f)) as [Hdigits Hne].
  split.
  - destruct (pretty (now f)); [done|by rewrite append_cons].
  - rewrite !all_chars_app, replace_ws_not_space.
    rewrite (all_chars_impl is_digit not_space _ ltac:(by intros [[][][][][][][][]]) Hdigits).
    done.
Qed.

(** X2. Sanitising a name leaves a name without white space as it is, so
    sanitising twice is sanitising once; it never lengthens a name. *)
Theorem sanitising_is_idempotent (s : string) :
  (all_chars not_space s = true → replace_ws false s = s) ∧
  replace_ws false (replace_ws false s) = replace_ws false s ∧
  String.length (replace_ws false s) ≤ String.length s.
Proof.
  split_and!.
  - apply replace_ws_fixed.
  - apply replace_ws_fixed, replace_ws_not_space.
  - apply replace_ws_length.
Qed.

Lemma sanitising_is_idempotent_witness :
  replace_ws false "cv-2024.final.pdf" = "cv-2024.final.pdf" ∧
  replace_ws false (replace_ws false "my  cv .pdf") = replace_ws false "my  cv .pdf".
Proof.
  destruct (sanitising_is_idempotent "cv-2024.final.pdf") as (Hfixed & _).
  destruct (sanitising_is_idempotent "my  cv .pdf") as (_ & Htwice & _).
  split; [apply Hfixed; reflexivity | exact Htwice].
Defined.

Lemma digit_not_dash (c : ascii) : is_digit c = true → c ≠ "-"%char.
Proof. by intros Hc ->. Qed.

(** A string of digits followed by a hyphen is cut at that hyphen. *)
Lemma digits_dash_split (a b x y : string) :
  all_chars is_digit a = true → all_chars is_digit b = true →
  a +:+ "-" +:+ x = b +:+ "-" +:+ y → a = b ∧ x = y.
Proof.
  revert b. induction a as [|c a IH]; intros [|d b] Ha Hb Heq.
  - by injection Heq.
  - rewrite append_cons in Heq. injection Heq as Hd _.
    simpl in Hb. apply andb_true_iff in Hb as [Hb _].
    by destruct (digit_not_dash d Hb).
  - rewrite append_cons in Heq. injection Heq as Hc _.
    simpl in Ha. apply andb_true_iff in Ha as [Ha _].
    by destruct (digit_not_dash c Ha).
  - rewrite !append_cons in Heq. injection Heq as -> Heq.
    simpl in Ha, Hb.
    apply andb_true_iff in Ha as [_ Ha]. apply andb_true_iff in Hb as [_ Hb].
    destruct (IH b Ha Hb Heq) as [-> ->]. done.
Qed.

(** X3. Two uploads get the same generated name exactly when the clock
    showed the same millisecond for both and their sanitised original
    names are equal. *)
Theorem filename_collision (f g : file) :
  filename f = filename g ↔
  now f = now g ∧
  replace_ws false (originalname f) = replace_ws false (originalname g).
Proof.
  unfold filename. split.
  - intros Heq.
    destruct (digits_dash_split _ _ _ _
                (proj1 (pretty_N_digits (now f)))
                (proj1 (pretty_N_digits (now g))) Heq) as [Hnow Hname].
    split; [|done]. by apply (inj pretty).
  - by intros [-> ->].
Qed.

(** ** Where a file lands *)

Lemma split_slash_plain (cur s : string) :
  all_chars not_slash s = true → split_slash cur s = [cur +:+ s].
Proof.
  revert cur. induction s as [|c s IH]; intros cur; simpl.
  - by rewrite append_empty_r.
  - intros [Hc Hs]%andb_true_iff. unfold not_slash in Hc.
    apply negb_true_iff in Hc. rewrite Hc, IH by done.
    by rewrite append_assoc.
Qed.

Lemma split_slash_segment (cur a b : string) :
  all_chars not_slash a = true →
  split_slash cur (a +:+ String "/" b) = (cur +:+ a) :: split_slash "" b.
Proof.
  revert cur. induction a as [|c a IH]; intros cur.
  - intros _. rewrite append_empty_l, append_empty_r. reflexivity.
  - rewrite append_cons. simpl.
    intros [Hc Ha]%andb_true_iff. unfold not_slash in Hc.
    apply negb_true_iff in Hc. rewrite Hc, IH by done.
    by rewrite append_assoc.
Qed.

Lemma push_segment_plain (stack : list string) (c : ascii) (seg : string) :
  c ≠ "."%char → push_segment stack (String c seg) = String c seg :: stack.
Proof.
  intros Hc. unfold push_segment.
  rewrite bool_decide_eq_false_2 by (intros [[=]|[=]]; congruence).
  rewrite bool_decide_eq_false_2 by (intros [=]; congruence). done.
Qed.

Lemma ends_with_slash_app (s t : string) :
  nonempty t = true → ends_with_slash (s +:+ t) = ends_with_slash t.
Proof.
  intros Ht. induction s as [|c s IH]; [done|].
  rewrite append_cons. simpl.
  destruct (s +:+ t) eqn:E; [|done].
  destruct s; [rewrite append_empty_l in E; by subst t|].
  by rewrite append_cons in E.
Qed.

Lemma ends_with_slash_plain (s : string) :
  all_chars not_slash s = true → ends_with_slash s = false.
Proof.
  induction s as [|c s IH]; [done|]. simpl.
  intros [Hc Hs]%andb_true_iff. unfold not_slash in Hc.
  apply negb_true_iff in Hc. destruct s; [done|by apply IH].
Qed.

Lemma replace_ws_not_slash (in_run : bool) (s : string) :
  all_chars not_slash s = true →
  all_chars not_slash (replace_ws in_run s) = true.
Proof.
  revert in_run. induction s as [|c s IH]; intros in_run; [done|]. simpl.
  intros [Hc Hs]%andb_true_iff.
  destruct (is_space c).
  - destruct in_run; simpl; by rewrite IH.
  - simpl. by rewrite Hc, IH.
Qed.

Lemma filename_not_slash (f : file) :
  all_chars not_slash (originalname f) = true →
  all_chars not_slash (filename f) = true.
Proof.
  intros Hname. unfold filename.
  rewrite !all_chars_app, replace_ws_not_slash by done.
  rewrite (all_chars_impl is_digit not_slash _
             ltac:(by intros [[][][][][][][][]])
             (proj1 (pretty_N_digits (now f)))).
  done.
Qed.

(** The generated name starts with a digit. *)
Lemma filename_head (f : file) :
  ∃ c rest, filename f = String c rest ∧ is_digit c = true.
Proof.
  unfold filename. destruct (pretty_N_digits (now f)) as [Hdigits Hne].
  destruct (pretty (now f)) as [|c rest]; [done|].
  exists c, (rest +:+ "-" +:+ replace_ws false (originalname f)).
  split; [done|]. simpl in Hdigits. by apply andb_true_iff in Hdigits as [-> _].
Qed.

Lemma normalize_in_bucket (bucket name : string) (c : ascii) (rest : string) :
  bucket ∈ ["images"; "pdfs"; "videos"; "others"] →
  name = String c rest → c ≠ "."%char →
  all_chars not_slash name = true →
  normalize (("uploads/" +:+ bucket) +:+ "/" +:+ name) =
  ("uploads/" +:+ bucket) +:+ "/" +:+ name.
Proof.
  intros Hbucket Hname Hc Hplain. unfold normalize.
  rewrite ends_with_slash_app by by subst name.
  rewrite ends_with_slash_app by by subst name.
  rewrite (ends_with_slash_plain name) by done. cbn [andb].
  rewrite append_assoc.
  assert (Hu : ∀ x, "uploads/" +:+ x = "uploads" +:+ String "/" x) by done.
  assert (Hs : ∀ x, "/" +:+ x = String "/" x) by done.
  rewrite Hu, Hs.
  rewrite (split_slash_segment "" "uploads") by done.
  assert (Hb : all_chars not_slash bucket = true).
  { rewrite !elem_of_cons, elem_of_nil in Hbucket.
    by destruct Hbucket as [->|[->|[->|[->|[]]]]]. }
  rewrite (split_slash_segment "" bucket) by done.
  rewrite split_slash_plain by done. rewrite !append_empty_l.
  subst name.
  rewrite !elem_of_cons, elem_of_nil in Hbucket.
  destruct Hbucket as [->|[->|[->|[->|[]]]]]; cbn [fold_left];
    rewrite push_segment_plain by done; reflexivity.
Qed.

Lemma destination_bucket (f : file) :
  ∃ bucket, bucket ∈ ["images"; "pdfs"; "videos"; "others"] ∧
            destination f = "uploads/" +:+ bucket.
Proof.
  unfold destination.
  destruct (String.prefix "image/" (mimetype f));
    [exists "images"; split; [set_solver|done]|].
  destruct (String.eqb (mimetype f) "application/pdf");
    [exists "pdfs"; split; [set_solver|done]|].
  destruct (String.prefix "video/" (mimetype f));
    [exists "videos"; split; [set_solver|done]|].
  exists "others"; split; [set_solver|done].
Qed.

(** X4. When the original name holds no slash, the file is written
    directly inside the bucket chosen for its media type, under the
    generated name: path normalisation changes nothing, so no upload
    leaves its bucket. *)
Theorem upload_stays_in_bucket (f : file) :
  all_chars not_slash (originalname f) = true →
  stored_at f = destination f +:+ "/" +:+ filename f ∧
  ∃ bucket, bucket ∈ ["images"; "pdfs"; "videos"; "others"] ∧
            destination f = "uploads/" +:+ bucket.
Proof.
  intros Hname. split; [|apply destination_bucket].
  destruct (destination_bucket f) as (bucket & Hbucket & Hdest).
  destruct (filename_head f) as (c & rest & Hhead & Hdigit).
  unfold stored_at. rewrite Hdest.
  apply (normalize_in_bucket bucket (filename f) c rest); [done|done| |].
  - by intros ->.
  - by apply filename_not_slash.
Qed.

Lemma upload_stays_in_bucket_witness :
  let f := {| mimetype := "video/mp4"; originalname := "my  demo reel.mp4";
              now := 1700000000123 |} in
  stored_at f = "uploads/videos/1700000000123-my_demo_reel.mp4".
Proof.
  intros f.
  destruct (upload_stays_in_bucket f) as [Hat _]; [reflexivity|].
  rewrite Hat. reflexivity.
Defined.

(** ** Reclamation *)

(** X5. Two reclamations that both go through (neither path resolves to a
    folder) commute and go through in either order; a reclamation that
    goes through never adds a file and changes no folder and no record,
    and after reclaiming a non-empty path its resolved target is absent. *)
Theorem deleteOldFile_commutes (a b : option string) (w wa wb : world) :
  deleteOldFile a w = Some wa → deleteOldFile b w = Some wb →
  (∃ w', deleteOldFile a wb = Some w' ∧ deleteOldFile b wa = Some w') ∧
  fs wa ⊆ fs w ∧ dirs wa = dirs w ∧ records wa = records w ∧
  (∀ p, a = Some p → p ≠ "" → normalize p ∉ fs wa).
Proof.
  intros Ha Hb.
  assert (Hshape : ∀ x v v', deleteOldFile x v = Some v' →
    ∃ D, fs v' = fs v ∖ D ∧ dirs v' = dirs v ∧ records v' = records v ∧
         (∀ u, dirs u = dirs v → deleteOldFile x u = Some (set_fs u (fs u ∖ D))) ∧
         (∀ p, x = Some p → p ≠ "" → normalize p ∈ D)).
  { intros x v v' Hx. destruct (truthy x) eqn:Hxt.
    - apply truthy_Some in Hxt as (p & -> & Hp%nonempty_true).
      rewrite deleteOldFile_eq in Hx by done.
      destruct (is_directory (normalize p) v) eqn:Hd; [done|].
      injection Hx as <-. exists {[normalize p]}.
      split_and!; [done..| |intros ? [= <-] _; set_solver].
      intros u Hu. rewrite deleteOldFile_eq by done.
      unfold is_directory in *. by rewrite Hu, Hd.
    - rewrite deleteOldFile_falsy in Hx by done. injection Hx as <-.
      exists ∅. split_and!; [set_solver|done|done| |].
      + intros u _. rewrite deleteOldFile_falsy by done.
        f_equal. symmetry. apply set_fs_id. set_solver.
      + intros p -> Hp%nonempty_true. simpl in Hxt. congruence. }
  destruct (Hshape a w wa Ha) as (Da & Hfa & Hda & Hra & Hany_a & Hgone).
  destruct (Hshape b w wb Hb) as (Db & Hfb & Hdb & Hrb & Hany_b & _).
  split_and!; [|set_solver|done|done|].
  - exists (set_fs wb (fs wb ∖ Da)). split; [by apply Hany_a|].
    rewrite (Hany_b wa) by done. f_equal. apply world_eq.
    + rewrite !set_fs_fs, Hfa, Hfb. set_solver.
    + simpl. congruence.
    + rewrite !set_fs_records. congruence.
  - intros p Hp Hpne. rewrite Hfa. specialize (Hgone p Hp Hpne). set_solver.
Qed.

Lemma deleteOldFile_commutes_witness :
  ∃ wa, deleteOldFile (Some "/uploads/images/1-old.png") ann_world = Some wa ∧
        normalize "/uploads/images/1-old.png" ∉ fs wa.
Proof.
  eexists. split; [reflexivity|].
  destruct (deleteOldFile_commutes (Some "/uploads/images/1-old.png") None
              ann_world _ ann_world eq_refl eq_refl)
    as (_ & _ & _ & _ & Hgone).
  apply (Hgone "/uploads/images/1-old.png"); [reflexivity|discriminate].
Defined.

(** ** The update route as a whole *)

Lemma elem_of_stale (x : string) (slot_part : option file) (old : option string) :
  x ∈ stale (uploaded slot_part) old →
  ∃ f o, slot_part = Some f ∧ old = Some o ∧ o ≠ "" ∧ x = normalize o.
Proof.
  unfold stale. destruct slot_part as [f|]; [|set_solver].
  destruct (truthy (uploaded (Some f)) && truthy old) eqn:E; [|set_solver].
  apply andb_true_iff in E as [_ Hold].
  apply truthy_Some in Hold as (o & -> & Ho).
  intros ->%elem_of_singleton. by exists f, o.
Qed.

Lemma elem_of_superseded (x : string) (req : Req.t) (p : Profile.t) :
  x ∈ superseded req p ↔
  ∃ s f o, part s req = Some f ∧ stored_path s p = Some o ∧ o ≠ "" ∧
           x = normalize o.
Proof.
  unfold superseded. rewrite !elem_of_union. split.
  - intros [[[H|H]|H]|H]; apply elem_of_stale in H as (f & o & ? & ? & ? & ?).
    + by exists PrimaryPicture, f, o.
    + by exists SecondaryPicture, f, o.
    + by exists Resume, f, o.
    + by exists VideoClip, f, o.
  - intros (s & f & o & Hpart & Hpath & Ho & ->).
    assert (Hin : ∀ sp old, sp = Some f → old = Some o →
                    normalize o ∈ stale (uploaded sp) old).
    { intros sp old -> ->. unfold stale. rewrite uploaded_Some. simpl.
      rewrite filename_nonempty. apply nonempty_true in Ho. rewrite Ho.
      by apply elem_of_singleton. }
    destruct s; simpl in *; eauto 6.
Qed.

(** What the route may do to the file store and to the records, whatever
    the request and whether or not it goes through. *)
Lemma post_update_profile_frame (req : Req.t) (w : world) :
  (∃ D, fs (post_update_profile req w).2 ∖ written req = (fs w ∖ written req) ∖ D ∧
        ∀ x, x ∈ D → ∃ userId name p,
          Req.user req = Some userId ∧ userId ≠ "" ∧
          Req.name req = Some name ∧ name ≠ "" ∧
          Profiles w !! userId = Some p ∧ x ∈ superseded req p) ∧
  dirs (post_update_profile req w).2 = dirs w ∧
  Educations (post_update_profile req w).2 = Educations w ∧
  Experiences (post_update_profile req w).2 = Experiences w ∧
  next_id (post_update_profile req w).2 = next_id w ∧
  ((Profiles (post_update_profile req w).2 = Profiles w ∧
    Users (post_update_profile req w).2 = Users w) ∨
   (∃ userId name,
      Req.user req = Some userId ∧ userId ≠ "" ∧
      Req.name req = Some name ∧ name ≠ "" ∧
      Profiles (post_update_profile req w).2 =
        <[userId := saved req userId name (Profiles w !! userId)]> (Profiles w) ∧
      Users (post_update_profile req w).2 = users_after req userId name (Users w))).
Proof.
  destruct (request_cases req w)
    as [Hs|[[Hs Hbad]|(Hs & userId & name & Hu & Hune & Hn & Hnne)]].
  - rewrite post_update_profile_unstorable by done. cbn [snd].
    split_and!; [exists ∅; split; set_solver|done..|by left].
  - rewrite post_update_profile_refused by done. cbn [snd].
    split_and!; [exists ∅; rewrite set_fs_fs; split; set_solver|done..|by left].
  - destruct (post_update_profile_valid req w userId name Hu Hune Hn Hnne Hs)
      as (D & HD & Hfs & Hdirs & HE & HX & HN & Hcase).
    split_and!; [|done..|].
    + exists D. split; [rewrite Hfs; set_solver|].
      intros x Hx. destruct (Profiles w !! userId) as [p|] eqn:Hp;
        [|set_solver]. exists userId, name, p. split_and!; [done..|].
      by apply HD.
    + destruct Hcase as [(_ & _ & _ & HP & HU)|(_ & _ & HP & HU)]; [right|by left].
      by exists userId, name.
Qed.

(** X6. Whatever the request, a file that was present before the route
    and is gone after it was the resolved prior path of a slot of the
    caller's own profile, and that slot received a new upload. *)
Theorem update_deletes_only_superseded_files (req : Req.t) (w : world) (x : string) :
  x ∈ fs w → x ∉ fs (post_update_profile req w).2 →
  ∃ userId p s f old,
    Req.user req = Some userId ∧ Profiles w !! userId = Some p ∧
    part s req = Some f ∧ stored_path s p = Some old ∧ old ≠ "" ∧
    x = normalize old.
Proof.
  intros Hin Hout.
  destruct (request_cases req w)
    as [Hs|[[Hs Hbad]|(Hs & userId & name & Hu & Hune & Hn & Hnne)]].
  - rewrite post_update_profile_unstorable in Hout by done. done.
  - rewrite post_update_profile_refused in Hout by done.
    cbn [snd] in Hout. rewrite set_fs_fs in Hout. set_solver.
  - destruct (post_update_profile_valid req w userId name Hu Hune Hn Hnne Hs)
      as (D & HD & Hfs & _).
    rewrite Hfs in Hout.
    destruct (Profiles w !! userId) as [p|] eqn:Hp; [|set_solver].
    assert (Hx : x ∈ superseded req p) by set_solver.
    apply elem_of_superseded in Hx as (s & f & old & ? & ? & ? & ?).
    by exists userId, p, s, f, old.
Qed.

Lemma update_deletes_only_superseded_files_witness :
  ∃ userId p s f old,
    Req.user pdf_over_picture = Some userId ∧
    Profiles ann_world !! userId = Some p ∧
    part s pdf_over_picture = Some f ∧ stored_path s p = Some old ∧ old ≠ "" ∧
    "uploads/images/1-old.png" = normalize old.
Proof.
  apply (update_deletes_only_superseded_files pdf_over_picture ann_world);
    by_evaluation.
Defined.

(** X7. Without a resolved caller the handler writes nothing, whatever the
    body holds: no record and no folder changes and no file is deleted.
    When every attached part can be written to its bucket the route
    answers 401 and the files attached to the request have been stored;
    when a part cannot be written the upload fails, the route answers 500
    and the world is as it was. *)
Theorem unauthorized_update_keeps_records (req : Req.t) (w : world) :
  truthy (Req.user req) = false →
  records (post_update_profile req w).2 = records w ∧
  dirs (post_update_profile req w).2 = dirs w ∧
  fs w ⊆ fs (post_update_profile req w).2 ∧
  (storable req w = true →
   (post_update_profile req w).1 =
     {| status := 401; json := Message "Unauthorized: Missing user ID" |} ∧
   fs (post_update_profile req w).2 = written req ∪ fs w) ∧
  (storable req w = false →
   (post_update_profile req w).1 = server_error ∧
   (post_update_profile req w).2 = w).
Proof.
  intros Hu. destruct (storable req w) eqn:Hs.
  - rewrite post_update_profile_refused by auto. rewrite Hu. cbn [fst snd].
    split_and!; [done|done|rewrite set_fs_fs; set_solver|done|done].
  - rewrite post_update_profile_unstorable by done. cbn [fst snd].
    by split_and!.
Qed.

Lemma unauthorized_update_keeps_records_witness :
  (post_update_profile anonymous_upload ann_world).1 =
    {| status := 401; json := Message "Unauthorized: Missing user ID" |} ∧
  fs (post_update_profile anonymous_upload ann_world).2 =
    {["uploads/images/3-me.png"]} ∪ fs ann_world.
Proof.
  destruct (unauthorized_update_keeps_records anonymous_upload ann_world)
    as (_ & _ & _ & Hstored & _); [reflexivity|].
  destruct Hstored as [Hres Hfs]; [reflexivity|].
  split; [exact Hres|]. rewrite Hfs. reflexivity.
Defined.

(** X8. The route writes for the caller only: the profile and the user
    record of every other id are what they were, and no education or
    experience entry changes, whatever the request. *)
Theorem update_leaves_other_owners (req : Req.t) (w : world) (k : string) :
  Req.user req ≠ Some k →
  Profiles (post_update_profile req w).2 !! k = Profiles w !! k ∧
  Users (post_update_profile req w).2 !! k = Users w !! k ∧
  Educations (post_update_profile req w).2 = Educations w ∧
  Experiences (post_update_profile req w).2 = Experiences w.
Proof.
  intros Hk.
  destruct (post_update_profile_frame req w)
    as (_ & _ & HE & HX & _ & [[-> ->]|(userId & name & Hu & _ & _ & _ & -> & ->)]);
    [done|].
  assert (userId ≠ k) by congruence.
  split_and!; [by rewrite lookup_insert_ne| |done|done].
  unfold users_after. destruct (Users w !! userId); [|done].
  by rewrite lookup_insert_ne.
Qed.

Lemma update_leaves_other_owners_witness :
  Profiles (post_update_profile pdf_as_picture ann_world).2 !! "u1" =
    Some ann_profile ∧
  Users (post_update_profile pdf_as_picture ann_world).2 !! "u1" = Some ann_user.
Proof.
  destruct (update_leaves_other_owners pdf_as_picture ann_world "u1")
    as (HP & HU & _); [discriminate|].
  rewrite HP, HU. split; reflexivity.
Defined.

Lemma stored_path_saved (s : slot) (req : Req.t) (userId name : string)
    (found : option Profile.t) :
  stored_path s (saved req userId name found) =
  match part s req with
  | Some f => Some (slot_prefix s +:+ filename f)
  | None => found ≫= stored_path s
  end.
Proof.
  destruct found as [p|], s; simpl;
    match goal with
    | |- context [uploaded ?x] => destruct x as [f|]
    end; solve [apply path_or_uploaded | reflexivity].
Qed.

(** X9. A valid update by a caller who has no profile, every part of which
    can be written to its bucket, creates a profile under the caller's id
    with the incoming name and [aboutText]; each slot holds the path built
    for its upload, or nothing; no file is deleted and no other profile
    appears. *)
Theorem first_update_creates_profile (req : Req.t) (w : world)
    (userId name : string) :
  Req.user req = Some userId → userId ≠ "" →
  Req.name req = Some name → name ≠ "" →
  storable req w = true →
  Profiles w !! userId = None →
  ∃ p',
    (post_update_profile req w).1 =
      {| status := 200; json := Saved "Profile saved successfully" p' |} ∧
    Profiles (post_update_profile req w).2 !! userId = Some p' ∧
    Profile.userId p' = userId ∧ Profile.name p' = name ∧
    Profile.aboutText p' = Req.aboutText req ∧
    (∀ s, stored_path s p' = (λ f, slot_prefix s +:+ filename f) <$> part s req) ∧
    fs (post_update_profile req w).2 = written req ∪ fs w ∧
    dom (Profiles (post_update_profile req w).2) = {[userId]} ∪ dom (Profiles w).
Proof.
  intros Hu Hune Hn Hnne Hs Hp.
  destruct (post_update_profile_ok req w userId name Hu Hune Hn Hnne Hs
              (reclaimable_fresh req w userId Hp))
    as (Hres & HP & _ & _ & _ & _ & _ & Hfs).
  rewrite Hp in Hres, HP, Hfs. exists (created req userId name).
  split_and!; [done| |done|done|done| | |].
  - rewrite HP. apply lookup_insert_eq.
  - intros s. pose proof (stored_path_saved s req userId name None) as Hsl.
    cbn [saved] in Hsl. rewrite Hsl. by destruct (part s req).
  - rewrite Hfs. cbn [from_option]. set_solver.
  - rewrite HP. apply dom_insert_L.
Qed.

Lemma first_update_creates_profile_witness :
  ∃ p',
    Profiles (post_update_profile first_update ann_world).2 !! "u3" = Some p' ∧
    Profile.name p' = "Cy" ∧ Profile.aboutText p' = Some "Hi" ∧
    stored_path Resume p' = None ∧
    fs (post_update_profile first_update ann_world).2 = fs ann_world.
Proof.
  destruct (first_update_creates_profile first_update ann_world "u3" "Cy")
    as (p' & _ & Hp' & _ & Hname & Habout & Hpaths & Hfs & _);
    try reflexivity; try discriminate.
  exists p'. split_and!; [done|done|done| |].
  - by rewrite Hpaths.
  - rewrite Hfs. by_evaluation.
Defined.

(** X10. Every valid update that goes through (each part can be written to
    its bucket and no superseded path is a folder) answers 200 with the
    profile it persisted for the caller; that profile carries the incoming
    name, and each slot holds the path built for its new upload when a
    part was sent and the value it had before otherwise. *)
Theorem valid_update_returns_persisted_profile (req : Req.t) (w : world)
    (userId name : string) :
  Req.user req = Some userId → userId ≠ "" →
  Req.name req = Some name → name ≠ "" →
  storable req w = true → reclaimable req w userId →
  ∃ p',
    (post_update_profile req w).1 =
      {| status := 200; json := Saved "Profile saved successfully" p' |} ∧
    Profiles (post_update_profile req w).2 !! userId = Some p' ∧
    Profile.name p' = name ∧
    ∀ s, stored_path s p' =
         match part s req with
         | Some f => Some (slot_prefix s +:+ filename f)
         | None => Profiles w !! userId ≫= stored_path s
         end.
Proof.
  intros Hu Hune Hn Hnne Hs Hr.
  destruct (post_update_profile_ok req w userId name Hu Hune Hn Hnne Hs Hr)
    as (Hres & HP & _).
  exists (saved req userId name (Profiles w !! userId)).
  split_and!; [done| | |].
  - rewrite HP. apply lookup_insert_eq.
  - by destruct (Profiles w !! userId).
  - intros s. apply stored_path_saved.
Qed.

Lemma valid_update_returns_persisted_profile_witness :
  ∃ p',
    Profiles (post_update_profile picture_and_resume ann_world).2 !! "u1" = Some p' ∧
    stored_path PrimaryPicture p' = Some "/uploads/images/5-new_me.jpg" ∧
    stored_path Resume p' = Some "/uploads/pdfs/6-cv.pdf" ∧
    stored_path VideoClip p' = None.
Proof.
  destruct (valid_update_returns_persisted_profile picture_and_resume ann_world
              "u1" "Ann") as (p' & _ & Hp' & _ & Hpaths);
    try reflexivity; try discriminate; try reclaimable_by_evaluation.
  exists p'. split_and!; [done| | |]; by rewrite Hpaths.
Defined.

Lemma js_or_idem (a b : option string) : js_or a (js_or a b) = js_or a b.
Proof. unfold js_or. by destruct (truthy a) eqn:Ha; rewrite ?Ha. Qed.

Lemma js_or_same (a : option string) : js_or a a = a.
Proof. unfold js_or. by destruct (truthy a). Qed.

Lemma update_user_idem (req : Req.t) (name : string) (u : User.t) :
  update_user req name (update_user req name u) = update_user req name u.
Proof. unfold update_user. simpl. by rewrite !js_or_idem. Qed.

Lemma users_after_idem (req : Req.t) (userId name : string)
    (us : gmap string User.t) :
  users_after req userId name (users_after req userId name us) =
  users_after req userId name us.
Proof.
  unfold users_after. destruct (us !! userId) as [u|] eqn:Hu.
  - rewrite lookup_insert_eq, update_user_idem. apply insert_insert_eq.
  - by rewrite Hu.
Qed.

Lemma saved_idem (req : Req.t) (userId name : string) (found : option Profile.t) :
  Req.profilePic req = None → Req.profilePic2 req = None →
  Req.resumePdf req = None → Req.video req = None →
  saved req userId name (Some (saved req userId name found)) =
  saved req userId name found.
Proof.
  intros H1 H2 H3 H4. destruct found as [p|]; unfold saved, merged, created;
    rewrite H1, H2, H3, H4; simpl; by rewrite ?js_or_idem, ?js_or_same.
Qed.

(** X11. An update that carries no file is idempotent: sending it a second
    time gives the same answer and leaves the world as the first did. *)
Theorem text_only_update_is_idempotent (req : Req.t) (w : world) :
  Req.profilePic req = None → Req.profilePic2 req = None →
  Req.resumePdf req = None → Req.video req = None →
  post_update_profile req (post_update_profile req w).2 =
  post_update_profile req w.
Proof.
  intros H1 H2 H3 H4.
  destruct (js_or_None_cases (Req.user req)) as [[Hu _]|(userId & Hu & Hune & _)].
  { rewrite !post_update_profile_no_files by done.
    by rewrite !update_profile_unauthorized. }
  destruct (js_or_None_cases (Req.name req)) as [[Hn _]|(name & Hn & Hnne & _)].
  { rewrite !post_update_profile_no_files by done.
    by rewrite !update_profile_rejected. }
  set (w1 := (post_update_profile req w).2).
  assert (Hok : ∀ v,
    (post_update_profile req v).1 =
      {| status := 200;
         json := Saved "Profile saved successfully"
                   (saved req userId name (Profiles v !! userId)) |} ∧
    Profiles (post_update_profile req v).2 =
      <[userId := saved req userId name (Profiles v !! userId)]> (Profiles v) ∧
    Users (post_update_profile req v).2 = users_after req userId name (Users v) ∧
    Educations (post_update_profile req v).2 = Educations v ∧
    Experiences (post_update_profile req v).2 = Experiences v ∧
    next_id (post_update_profile req v).2 = next_id v ∧
    dirs (post_update_profile req v).2 = dirs v ∧
    fs (post_update_profile req v).2 = fs v).
  { intros v.
    destruct (post_update_profile_ok req v userId name Hu Hune Hn Hnne
                (storable_no_files req v H1 H2 H3 H4)
                (reclaimable_no_files req v userId H1 H2 H3 H4))
      as (Hres & HP & HU & HE & HX & HN & Hd & Hfs).
    split_and!; [done..|]. rewrite Hfs, written_no_files by done.
    destruct (Profiles v !! userId) as [p|]; cbn [from_option];
      rewrite ?superseded_no_files by done; set_solver. }
  destruct (Hok w) as (Hres & HP & HU & HE & HX & HN & Hd & Hfs).
  destruct (Hok w1) as (Hres1 & HP1 & HU1 & HE1 & HX1 & HN1 & Hd1 & Hfs1).
  fold w1 in HP, HU, HE, HX, HN, Hd, Hfs.
  assert (Hfound : Profiles w1 !! userId =
                   Some (saved req userId name (Profiles w !! userId))).
  { rewrite HP. apply lookup_insert_eq. }
  rewrite Hfound, saved_idem in Hres1, HP1 by done.
  rewrite (surjective_pairing (post_update_profile req w1)).
  rewrite (surjective_pairing (post_update_profile req w)).
  f_equal; [by rewrite Hres, Hres1|].
  apply world_eq.
  - done.
  - done.
  - unfold records. fold w1. rewrite HP1, HU1, HE1, HX1, HN1.
    rewrite HP, HU. by rewrite insert_insert_eq, users_after_idem.
Qed.

Lemma text_only_update_is_idempotent_witness :
  post_update_profile blank_update (post_update_profile blank_update ann_world).2 =
  post_update_profile blank_update ann_world.
Proof.
  apply (text_only_update_is_idempotent blank_update ann_world); reflexivity.
Defined.

Lemma slot_path_resolves (s : slot) (f : file) :
  expected s f = true → normalize (slot_prefix s +:+ filename f) = stored_at f.
Proof.
  destruct (matching_type_path_resolves f) as (Himage & Hpdf & Hvideo).
  destruct s; simpl; intros H; auto.
  apply Hpdf. by apply String.eqb_eq.
Qed.

(** X12. A valid update of an existing profile that goes through (each
    part can be written to its bucket and no superseded path is a folder)
    and sends, into any slot, a part of the media type that slot expects:
    the saved path of the slot resolves to the place the file was written
    to, the file the slot referred to before is gone, and the new file is
    present unless it was written over one of the prior targets that the
    update reclaims. *)
Theorem matching_upload_replaces_slot (s : slot) (req : Req.t) (w : world)
    (userId name : string) (p : Profile.t) (f : file) :
  Req.user req = Some userId → userId ≠ "" →
  Req.name req = Some name → name ≠ "" →
  storable req w = true → reclaimable req w userId →
  Profiles w !! userId = Some p →
  part s req = Some f → expected s f = true →
  ∃ p',
    (post_update_profile req w).1 =
      {| status := 200; json := Saved "Profile saved successfully" p' |} ∧
    Profiles (post_update_profile req w).2 !! userId = Some p' ∧
    stored_path s p' = Some (slot_prefix s +:+ filename f) ∧
    normalize (slot_prefix s +:+ filename f) = stored_at f ∧
    (∀ old, stored_path s p = Some old → old ≠ "" →
            normalize old ∉ fs (post_update_profile req w).2) ∧
    (stored_at f ∉ superseded req p →
     stored_at f ∈ fs (post_update_profile req w).2).
Proof.
  intros Hu Hune Hn Hnne Hs Hr Hp Hpart Hexp.
  destruct (post_update_profile_ok req w userId name Hu Hune Hn Hnne Hs Hr)
    as (Hres & HP & _ & _ & _ & _ & _ & Hfs).
  rewrite Hp in Hfs. cbn [from_option] in Hfs.
  exists (saved req userId name (Profiles w !! userId)).
  split_and!.
  - done.
  - rewrite HP. apply lookup_insert_eq.
  - by rewrite stored_path_saved, Hpart.
  - by apply slot_path_resolves.
  - intros old Hold Holdne. rewrite Hfs.
    assert (normalize old ∈ superseded req p); [|set_solver].
    apply elem_of_superseded. by exists s, f, old.
  - intros Hfresh. rewrite Hfs. apply elem_of_difference. split; [|done].
    apply elem_of_union_l. unfold written.
    apply elem_of_list_to_set, list_elem_of_omap.
    exists (part s req). split; [|by rewrite Hpart].
    destruct s; simpl; set_solver.
Qed.

Lemma matching_upload_replaces_slot_witness :
  ∃ p',
    Profiles (post_update_profile picture_and_resume ann_world).2 !! "u1" = Some p' ∧
    stored_path Resume p' = Some "/uploads/pdfs/6-cv.pdf" ∧
    normalize "/uploads/pdfs/6-cv.pdf" ∈
      fs (post_update_profile picture_and_resume ann_world).2 ∧
    normalize "/uploads/pdfs/1-cv.pdf" ∉
      fs (post_update_profile picture_and_resume ann_world).2.
Proof.
  destruct (matching_upload_replaces_slot Resume picture_and_resume ann_world
              "u1" "Ann" ann_profile
              {| mimetype := "application/pdf"; originalname := "cv.pdf"; now := 6 |})
    as (p' & _ & Hp' & Hpath & Hres & Hgone & Hthere);
    try reflexivity; try discriminate; try reclaimable_by_evaluation.
  exists p'. split_and!; [done|done| |].
  - change (normalize "/uploads/pdfs/6-cv.pdf")
      with (stored_at {| mimetype := "application/pdf";
                         originalname := "cv.pdf"; now := 6 |}).
    apply Hthere. by_evaluation.
  - apply (Hgone "/uploads/pdfs/1-cv.pdf"); [reflexivity|discriminate].
Defined.

(** X13. A valid update of an existing profile keeps the path of every
    slot that receives no part, and the file that path refers to stays in
    place unless another slot referred to the same file and is replaced. *)
Theorem untouched_slot_keeps_file (s : slot) (req : Req.t) (w : world)
    (userId name : string) (p : Profile.t) :
  Req.user req = Some userId → userId ≠ "" →
  Req.name req = Some name → name ≠ "" →
  Profiles w !! userId = Some p →
  part s req = None →
  ∃ p',
    Profiles (post_update_profile req w).2 !! userId = Some p' ∧
    stored_path s p' = stored_path s p ∧
    ∀ old, stored_path s p = Some old →
           normalize old ∈ fs w →
           normalize old ∉ superseded req p →
           normalize old ∈ fs (post_update_profile req w).2.
Proof.
  intros Hu Hune Hn Hnne Hp Hpart.
  destruct (post_update_profile_frame req w)
    as ((D & Hfs & HD) & _ & _ & _ & _ & Hcase).
  assert (Hkept : ∀ old, normalize old ∈ fs w →
            normalize old ∉ superseded req p →
            normalize old ∈ fs (post_update_profile req w).2).
  { intros old Hin Hfresh.
    destruct (decide (normalize old ∈ written req)) as [Hw|Hw].
    - destruct (storable req w) eqn:Hs.
      + destruct (post_update_profile_valid req w userId name Hu Hune Hn Hnne Hs)
          as (D' & HD' & Hfs' & _).
        rewrite Hfs'. rewrite Hp in HD'. cbn [from_option] in HD'. set_solver.
      + by rewrite post_update_profile_unstorable.
    - assert (Hin' : normalize old ∈
                fs (post_update_profile req w).2 ∖ written req); [|set_solver].
      rewrite Hfs. apply elem_of_difference. split; [set_solver|].
      intros Hx. destruct (HD _ Hx) as (userId' & name' & p' & Hu' & _ & _ & _ & Hp' & Hsup).
      assert (userId' = userId) as -> by congruence.
      assert (p' = p) as -> by congruence. done. }
  destruct Hcase as [[HP _]|(userId' & name' & Hu' & _ & Hn' & _ & HP & _)].
  - exists p. split_and!; [by rewrite HP|done|]. intros old _. apply Hkept.
  - assert (userId' = userId) as -> by congruence.
    assert (name' = name) as -> by congruence.
    exists (saved req userId name (Profiles w !! userId)).
    split_and!.
    + rewrite HP. apply lookup_insert_eq.
    + by rewrite stored_path_saved, Hpart, Hp.
    + intros old _. apply Hkept.
Qed.

Lemma untouched_slot_keeps_file_witness :
  ∃ p',
    Profiles (post_update_profile pdf_over_picture ann_world).2 !! "u1" = Some p' ∧
    stored_path Resume p' = Some "/uploads/pdfs/1-cv.pdf" ∧
    normalize "/uploads/pdfs/1-cv.pdf" ∈
      fs (post_update_profile pdf_over_picture ann_world).2.
Proof.
  destruct (untouched_slot_keeps_file Resume pdf_over_picture ann_world
              "u1" "Ann" ann_profile)
    as (p' & Hp' & Hpath & Hkept); try reflexivity; try discriminate.
  exists p'. split_and!; [done|by rewrite Hpath|].
  apply (Hkept "/uploads/pdfs/1-cv.pdf"); [reflexivity| |]; by_evaluation.
Defined.

(** ** GET /get-profile *)

Lemma or_empty_truthy (s : string) (old : option string) :
  s ≠ "" → or_empty (js_or (Some s) old) = s.
Proof.
  intros Hs. apply nonempty_true in Hs.
  unfold or_empty. rewrite (js_or_truthy (Some s) old) by done.
  by rewrite (js_or_truthy (Some s) None).
Qed.

Section GetProfile.

Variable findOne : gmap string User.t → option (string * User.t).

(** X14. For a resolved caller the route answers 200 exactly when both a
    profile and a user record exist under the caller's id, and 404 with
    its message in every other case. *)
Theorem get_profile_found_iff (caller : option string) (userId : string) (w : world) :
  caller = Some userId → userId ≠ "" →
  (view_status (get_profile findOne caller w) = 200 ↔
     is_Some (Profiles w !! userId) ∧ is_Some (Users w !! userId)) ∧
  (view_status (get_profile findOne caller w) ≠ 200 →
     get_profile findOne caller w =
     {| view_status := 404; view_json := NotFound "Profile or user not found" |}).
Proof.
  intros Hc Hne. unfold get_profile.
  rewrite (proj2 (js_or_None_Some _ _) (conj Hc Hne)).
  destruct (Profiles w !! userId) as [p|], (Users w !! userId) as [u|]; simpl;
    (split; [split; [try done|]|try done]).
  - by intros _; split.
  - by intros [_ [? [=]]].
  - by intros [[? [=]] _].
  - by intros [[? [=]] _].
Qed.

(** X15. What a valid update writes is what the caller reads back. When
    the update goes through (each part can be written to its bucket and no
    superseded path is a folder) and a user record is in place, get-profile
    after the update answers 200 with the incoming name, the user's
    e-mail, every incoming non-empty text field ([aboutText] and the five
    fields of the user) and, for each slot that received a part, the path
    built for it. *)
Theorem update_then_get_profile (req : Req.t) (w : world)
    (userId name : string) (u : User.t) :
  Req.user req = Some userId → userId ≠ "" →
  Req.name req = Some name → name ≠ "" →
  storable req w = true → reclaimable req w userId →
  Users w !! userId = Some u →
  ∃ v,
    get_profile findOne (Some userId) (post_update_profile req w).2 =
      {| view_status := 200;
         view_json := Fetched "Profile data fetched successfully" v |} ∧
    view_name v = name ∧ view_email v = User.email u ∧
    (∀ s, Req.aboutText req = Some s → s ≠ "" → view_aboutText v = s) ∧
    (∀ s, Req.phoneNumber req = Some s → s ≠ "" → view_phoneNumber v = s) ∧
    (∀ s, Req.degree req = Some s → s ≠ "" → view_degree v = s) ∧
    (∀ s, Req.birthday req = Some s → s ≠ "" → view_birthday v = s) ∧
    (∀ s, Req.address req = Some s → s ≠ "" → view_address v = s) ∧
    (∀ s, Req.experience req = Some s → s ≠ "" → view_experience v = s) ∧
    (∀ f, Req.profilePic req = Some f →
          view_profilePic v = Some ("/uploads/images/" +:+ filename f)) ∧
    (∀ f, Req.profilePic2 req = Some f →
          view_profilePic2 v = "/uploads/images/" +:+ filename f) ∧
    (∀ f, Req.resumePdf req = Some f →
          view_pdf v = Some ("/uploads/pdfs/" +:+ filename f)) ∧
    (∀ f, Req.video req = Some f →
          view_video v = Some ("/uploads/videos/" +:+ filename f)).
Proof.
  intros Hu Hune Hn Hnne Hst Hr Huser.
  destruct (post_update_profile_ok req w userId name Hu Hune Hn Hnne Hst Hr)
    as (_ & HP & HU & _).
  unfold get_profile.
  rewrite (proj2 (js_or_None_Some (Some userId) userId) (conj eq_refl Hune)).
  rewrite HP, HU, lookup_insert_eq. unfold users_after.
  rewrite Huser, lookup_insert_eq.
  eexists. split; [reflexivity|]. cbn [view_name view_email view_aboutText
    view_phoneNumber view_degree view_birthday view_address view_experience
    view_profilePic view_profilePic2 view_pdf view_video].
  pose proof (stored_path_saved PrimaryPicture req userId name (Profiles w !! userId)) as H1.
  pose proof (stored_path_saved SecondaryPicture req userId name (Profiles w !! userId)) as H2.
  pose proof (stored_path_saved Resume req userId name (Profiles w !! userId)) as H3.
  pose proof (stored_path_saved VideoClip req userId name (Profiles w !! userId)) as H4.
  cbn [stored_path part slot_prefix] in H1, H2, H3, H4.
  split_and!.
  - by destruct (Profiles w !! userId).
  - done.
  - intros s Hs Hsne. destruct (Profiles w !! userId) as [p|]; simpl; rewrite Hs.
    + by apply or_empty_truthy.
    + apply nonempty_true in Hsne. unfold or_empty.
      by rewrite (js_or_truthy (Some s) None).
  - intros s Hs Hsne. simpl. rewrite Hs. by apply or_empty_truthy.
  - intros s Hs Hsne. simpl. rewrite Hs. by apply or_empty_truthy.
  - intros s Hs Hsne. simpl. rewrite Hs. by apply or_empty_truthy.
  - intros s Hs Hsne. simpl. rewrite Hs. by apply or_empty_truthy.
  - intros s Hs Hsne. simpl. rewrite Hs. by apply or_empty_truthy.
  - intros f Hf. by rewrite H1, Hf.
  - intros f Hf. rewrite H2, Hf. unfold or_empty.
    rewrite js_or_truthy; [done|]. reflexivity.
  - intros f Hf. by rewrite H3, Hf.
  - intros f Hf. by rewrite H4, Hf.
Qed.

(** X16. A valid update that goes through for a caller without a user
    record answers 200 and persists the profile, yet get-profile for that
    caller then answers 404: the read needs the user record that the write
    tolerates missing. *)
Theorem profile_without_user_is_not_found (req : Req.t) (w : world)
    (userId name : string) :
  Req.user req = Some userId → userId ≠ "" →
  Req.name req = Some name → name ≠ "" →
  storable req w = true → reclaimable req w userId →
  Users w !! userId = None →
  status (post_update_profile req w).1 = 200 ∧
  is_Some (Profiles (post_update_profile req w).2 !! userId) ∧
  get_profile findOne (Some userId) (post_update_profile req w).2 =
    {| view_status := 404; view_json := NotFound "Profile or user not found" |}.
Proof.
  intros Hu Hune Hn Hnne Hst Hr Huser.
  destruct (post_update_profile_ok req w userId name Hu Hune Hn Hnne Hst Hr)
    as (Hres & HP & HU & _).
  split_and!.
  - by rewrite Hres.
  - rewrite HP, lookup_insert_eq. by eexists.
  - unfold get_profile.
    rewrite (proj2 (js_or_None_Some (Some userId) userId) (conj eq_refl Hune)).
    rewrite HP, HU, lookup_insert_eq. unfold users_after. by rewrite Huser, Huser.
Qed.

End GetProfile.

Lemma get_profile_found_iff_witness :
  view_status (get_profile least_user (Some "u1") ann_world) = 200 ∧
  get_profile least_user (Some "u2") ann_world =
    {| view_status := 404; view_json := NotFound "Profile or user not found" |}.
Proof.
  destruct (get_profile_found_iff least_user (Some "u1") "u1" ann_world)
    as [Hfound _]; [reflexivity|discriminate|].
  destruct (get_profile_found_iff least_user (Some "u2") "u2" ann_world)
    as [Hiff Hmissing]; [reflexivity|discriminate|].
  split.
  - apply Hfound. split; by_evaluation.
  - apply Hmissing. intros H200. apply Hiff in H200 as [[p Hp] _].
    discriminate Hp.
Defined.

Lemma update_then_get_profile_witness :
  ∃ v,
    get_profile least_user (Some "u1") (post_update_profile full_update ann_world).2 =
      {| view_status := 200;
         view_json := Fetched "Profile data fetched successfully" v |} ∧
    view_name v = "Ann B" ∧ view_aboutText v = "Hi there" ∧
    view_phoneNumber v = "999" ∧ view_degree v = "MSc".
Proof.
  destruct (update_then_get_profile least_user full_update ann_world
              "u1" "Ann B" ann_user)
    as (v & Hv & Hname & _ & Habout & Hphone & Hdegree & _);
    try reflexivity; try discriminate; try reclaimable_by_evaluation.
  exists v. split_and!; [done|done| | |].
  - by apply Habout.
  - by apply Hphone.
  - by apply Hdegree.
Defined.

Lemma profile_without_user_is_not_found_witness :
  status (post_update_profile first_update ann_world).1 = 200 ∧
  get_profile least_user (Some "u3") (post_update_profile first_update ann_world).2 =
    {| view_status := 404; view_json := NotFound "Profile or user not found" |}.
Proof.
  destruct (profile_without_user_is_not_found least_user first_update ann_world
              "u3" "Cy") as (Hres & _ & Hget);
    try reflexivity; try discriminate; try reclaimable_by_evaluation.
  by split.
Defined.

(** ** Both record handlers, whatever the body *)

(** The outcomes of the shared body: what it answers and what it leaves. *)
Lemma add_records_outcomes schema (required : list string)
    (format_error required_error : string) (user : option string)
    (newData : value) (coll : list doc) (next : nat) :
  let '(res, coll', next') :=
    add_records schema required format_error required_error user newData coll next in
  (status res = 400 ∧ coll' = coll ∧ next' = next) ∨
  (status res = 500 ∧ user = None ∧ coll' = coll ∧ next' = next) ∨
  (∃ userId, user = Some userId ∧
     ((status res = 500 ∧ coll' = deleteMany userId coll ∧ next' = next) ∨
      (∃ inserted, res = {| status := 200; json := Docs inserted |} ∧
                   coll' = deleteMany userId coll ++ inserted))).
Proof.
  unfold add_records.
  destruct (to_array newData) as [entries|]; [|by left].
  destruct user as [userId|]; [|by right; left].
  destruct (forallb (complete required) (with_user userId <$> entries));
    [|by left].
  destruct (insertMany schema (with_user userId <$> entries) next)
    as [inserted|]; cbn.
  - right; right. exists userId. split; [done|]. right. by exists inserted.
  - right; right. exists userId. split; [done|]. by left.
Qed.

Lemma elem_of_deleteMany (userId : string) (coll : list doc) (d : doc) :
  d ∈ deleteMany userId coll ↔ owned_by userId d = false ∧ d ∈ coll.
Proof. unfold deleteMany. by rewrite list_elem_of_filter. Qed.

Section RecordHandlers.

Variable EducationSchema : gmap string value → option (gmap string value).
Variable ExperienceSchema : gmap string value → option (gmap string value).

(** X17. Each record handler answers 200, 400 or 500, and whenever it
    answers 400 the world is exactly as it was. *)
Theorem bad_request_changes_nothing (req : json_request) (w : world) :
  (status (add_education EducationSchema req w).1 ∈ [200; 400; 500] ∧
   (status (add_education EducationSchema req w).1 = 400 →
    (add_education EducationSchema req w).2 = w)) ∧
  (status (add_experience ExperienceSchema req w).1 ∈ [200; 400; 500] ∧
   (status (add_experience ExperienceSchema req w).1 = 400 →
    (add_experience ExperienceSchema req w).2 = w)).
Proof.
  split.
  - unfold add_education.
    pose proof (add_records_outcomes EducationSchema education_fields
                  "Invalid education data format"
                  "Each education object must include degreeName, collegeName, fromYear, and toYear"
                  (req_user req) (req_body req) (Educations w) (next_id w)) as H.
    destruct (add_records _ _ _ _ _ _ _ _) as [[res coll'] next']. cbn [fst snd].
    destruct H as [(Hs & -> & ->)|[(Hs & _ & -> & ->)|(u & _ & [(Hs & _)|(ins & -> & _)])]];
      rewrite ?Hs; (split; [set_solver|]); try done; intros _; by destruct w.
  - unfold add_experience.
    pose proof (add_records_outcomes ExperienceSchema experience_fields
                  "Invalid Experience data format"
                  "Each Experience object must include Disignation, Company Name and Time."
                  (req_user req) (req_body req) (Experiences w) (next_id w)) as H.
    destruct (add_records _ _ _ _ _ _ _ _) as [[res coll'] next']. cbn [fst snd].
    destruct H as [(Hs & -> & ->)|[(Hs & _ & -> & ->)|(u & _ & [(Hs & _)|(ins & -> & _)])]];
      rewrite ?Hs; (split; [set_solver|]); try done; intros _; by destruct w.
Qed.

(** X18. A submission of education entries touches nothing but the
    education collection, and there every entry that is not the caller's
    survives, whatever the answer; without a resolved caller nothing
    changes at all. The same holds for experience entries. *)
Theorem record_handlers_leave_others (req : json_request) (w : world) :
  (fs (add_education EducationSchema req w).2 = fs w ∧
   Profiles (add_education EducationSchema req w).2 = Profiles w ∧
   Users (add_education EducationSchema req w).2 = Users w ∧
   Experiences (add_education EducationSchema req w).2 = Experiences w ∧
   (req_user req = None → (add_education EducationSchema req w).2 = w) ∧
   (∀ userId d, req_user req = Some userId → d ∈ Educations w →
      owned_by userId d = false →
      d ∈ Educations (add_education EducationSchema req w).2)) ∧
  (fs (add_experience ExperienceSchema req w).2 = fs w ∧
   Profiles (add_experience ExperienceSchema req w).2 = Profiles w ∧
   Users (add_experience ExperienceSchema req w).2 = Users w ∧
   Educations (add_experience ExperienceSchema req w).2 = Educations w ∧
   (req_user req = None → (add_experience ExperienceSchema req w).2 = w) ∧
   (∀ userId d, req_user req = Some userId → d ∈ Experiences w →
      owned_by userId d = false →
      d ∈ Experiences (add_experience ExperienceSchema req w).2)).
Proof.
  split.
  - unfold add_education.
    pose proof (add_records_outcomes EducationSchema education_fields
                  "Invalid education data format"
                  "Each education object must include degreeName, collegeName, fromYear, and toYear"
                  (req_user req) (req_body req) (Educations w) (next_id w)) as H.
    destruct (add_records _ _ _ _ _ _ _ _) as [[res coll'] next']. cbn [fst snd].
    split_and!; try done.
    + intros Hnone.
      destruct H as [(_ & -> & ->)|[(_ & _ & -> & ->)|(u & Hu & _)]];
        [by destruct w|by destruct w|congruence].
    + intros userId d Huser Hd Hother. cbn [Educations].
      destruct H as [(_ & -> & _)|[(_ & _ & -> & _)|(u & Hu & H)]]; [done|done|].
      assert (u = userId) as -> by congruence.
      destruct H as [(_ & -> & _)|(ins & _ & ->)].
      * by apply elem_of_deleteMany.
      * apply elem_of_app. left. by apply elem_of_deleteMany.
  - unfold add_experience.
    pose proof (add_records_outcomes ExperienceSchema experience_fields
                  "Invalid Experience data format"
                  "Each Experience object must include Disignation, Company Name and Time."
                  (req_user req) (req_body req) (Experiences w) (next_id w)) as H.
    destruct (add_records _ _ _ _ _ _ _ _) as [[res coll'] next']. cbn [fst snd].
    split_and!; try done.
    + intros Hnone.
      destruct H as [(_ & -> & ->)|[(_ & _ & -> & ->)|(u & Hu & _)]];
        [by destruct w|by destruct w|congruence].
    + intros userId d Huser Hd Hother. cbn [Experiences].
      destruct H as [(_ & -> & _)|[(_ & _ & -> & _)|(u & Hu & H)]]; [done|done|].
      assert (u = userId) as -> by congruence.
      destruct H as [(_ & -> & _)|(ins & _ & ->)].
      * by apply elem_of_deleteMany.
      * apply elem_of_app. left. by apply elem_of_deleteMany.
Qed.

End RecordHandlers.

Lemma bad_request_changes_nothing_witness :
  (add_education stores_as_given
     {| req_user := Some "u1"; req_body := VStr "BSc" |} school_world).2 =
  school_world.
Proof.
  destruct (bad_request_changes_nothing stores_as_given stores_as_given
              {| req_user := Some "u1"; req_body := VStr "BSc" |} school_world)
    as [[_ Hsame] _].
  apply Hsame. reflexivity.
Defined.

Lemma record_handlers_leave_others_witness :
  {| doc_id := 1;
     doc_fields := list_to_map
       [("userId", VStr "u2"); ("degreeName", VStr "MSc");
        ("collegeName", VStr "Z"); ("fromYear", VNum 2010);
        ("toYear", VNum 2012)] |}
  ∈ Educations
      (add_education stores_as_given
         {| req_user := Some "u1"; req_body := VArr [bsc_entry] |} school_world).2.
Proof.
  destruct (record_handlers_leave_others stores_as_given stores_as_given
              {| req_user := Some "u1"; req_body := VArr [bsc_entry] |}
              school_world) as [(_ & _ & _ & _ & _ & Hothers) _].
  apply (Hothers "u1"); [reflexivity| |reflexivity].
  apply list_elem_of_further, list_elem_of_here.
Defined.

(** ** Entries the validation loop refuses *)

Lemma pretty_nat_digits (i : nat) : all_chars is_digit (pretty i) = true.
Proof. apply (pretty_N_digits (N.of_nat i)). Qed.

(** The own properties of a value that is not an object are indices. *)
Lemma spread_index_keys (e : value) (k : string) (v : value) :
  is_object e = false → spread e !! k = Some v → all_chars is_digit k = true.
Proof.
  intros Hobj Hk. destruct e as [| | |s|l|o]; simpl in *; try done.
  - apply elem_of_list_to_map_2, elem_of_lookup_imap in Hk
      as (i & c & [= -> _] & _). apply pretty_nat_digits.
  - apply elem_of_list_to_map_2, elem_of_lookup_imap in Hk
      as (i & x & [= -> _] & _). apply pretty_nat_digits.
Qed.

Lemma falsy_field_incomplete (required : list string) (userId : string)
    (e : value) (k : string) (v : value) :
  k ∈ required → k ≠ "userId" →
  spread e !! k = Some v → value_truthy v = false →
  complete required (with_user userId e) = false.
Proof.
  intros Hk Hne Hv Hfalsy. unfold complete.
  apply forallb_false_Exists, Exists_exists. exists k. split; [done|].
  unfold prop_truthy. by rewrite with_user_lookup, Hv.
Qed.

Lemma deleteMany_owned (userId : string) (coll : list doc) :
  Forall (λ d, owned_by userId d = true) coll → deleteMany userId coll = [].
Proof.
  unfold deleteMany. induction 1 as [|d coll Hd _ IH]; [done|].
  rewrite filter_cons_False by congruence. done.
Qed.

Lemma deleteMany_idem (userId : string) (coll : list doc) :
  deleteMany userId (deleteMany userId coll) = deleteMany userId coll.
Proof.
  unfold deleteMany. induction coll as [|d coll IH]; [done|].
  rewrite (filter_cons _ d coll). case_decide as Hd; [|done].
  by rewrite filter_cons_True, IH.
Qed.

Lemma fields_owned (userId : string) (entries : list value) (inserted : list doc) :
  doc_fields <$> inserted = with_user userId <$> entries →
  Forall (λ d, owned_by userId d = true) inserted.
Proof.
  intros Hfields. apply Forall_forall. intros d Hd.
  apply (list_elem_of_fmap_2 doc_fields) in Hd. rewrite Hfields in Hd.
  apply list_elem_of_fmap in Hd as (e & Hde & _).
  unfold owned_by. rewrite Hde, with_user_owner. apply String.eqb_refl.
Qed.

Section RecordEdges.

Variable EducationSchema : gmap string value → option (gmap string value).
Variable ExperienceSchema : gmap string value → option (gmap string value).

(** X19. Submitting the empty list is accepted: the answer is 200 with no
    document, and the caller is left with no entry of that kind, the other
    owners' entries staying in place. *)
Theorem empty_submission_clears_entries (req : json_request) (w : world)
    (userId : string) :
  req_user req = Some userId → req_body req = VArr [] →
  ((add_education EducationSchema req w).1 = {| status := 200; json := Docs [] |} ∧
   Educations (add_education EducationSchema req w).2 =
     filter (λ d, owned_by userId d = false) (Educations w)) ∧
  ((add_experience ExperienceSchema req w).1 = {| status := 200; json := Docs [] |} ∧
   Experiences (add_experience ExperienceSchema req w).2 =
     filter (λ d, owned_by userId d = false) (Experiences w)).
Proof.
  intros Hu Hbody.
  unfold add_education, add_experience, add_records, insertMany.
  rewrite Hu, Hbody. cbn. by rewrite !app_nil_r.
Qed.

(** X20. An array holding anything that is not an object (a string, a
    number, a boolean, null, a nested array) is refused with the 400
    validation error by both handlers, and nothing is deleted. *)
Theorem non_object_entry_refused (req : json_request) (w : world)
    (userId : string) (entries : list value) :
  req_user req = Some userId →
  to_array (req_body req) = Some entries →
  Exists (λ e, is_object e = false) entries →
  add_education EducationSchema req w =
    ({| status := 400;
        json := Error "Each education object must include degreeName, collegeName, fromYear, and toYear" |},
     w) ∧
  add_experience ExperienceSchema req w =
    ({| status := 400;
        json := Error "Each Experience object must include Disignation, Company Name and Time." |},
     w).
Proof.
  intros Huser Harr Hbad.
  assert (Hmissing : ∀ k, all_chars is_digit k = false →
            Exists (λ e, spread e !! k = None) entries).
  { intros k Hk. eapply Exists_impl; [exact Hbad|]. intros e He. simpl in He.
    destruct (spread e !! k) as [v|] eqn:Hv; [|done].
    apply (spread_index_keys e k v He) in Hv. congruence. }
  split.
  - unfold add_education. rewrite Huser.
    erewrite add_records_rejects; [by destruct w|done|].
    apply missing_some_incomplete; [apply education_fields_not_owner|].
    eapply Exists_impl; [exact (Hmissing "degreeName" eq_refl)|].
    intros e He. exists "degreeName". split; [set_solver|done].
  - unfold add_experience. rewrite Huser.
    erewrite add_records_rejects; [by destruct w|done|].
    apply missing_some_incomplete; [apply experience_fields_not_owner|].
    eapply Exists_impl; [exact (Hmissing "designation" eq_refl)|].
    intros e He. exists "designation". split; [set_solver|done].
Qed.

(** X21. The validation is by truthiness: an entry in which a required
    field is present but is 0, the empty string, false or null is refused
    with 400 like an entry that lacks the field, and nothing is deleted. *)
Theorem falsy_field_refused (req : json_request) (w : world)
    (userId : string) (entries : list value) :
  req_user req = Some userId →
  to_array (req_body req) = Some entries →
  (Exists (λ e, ∃ k v, k ∈ education_fields ∧ spread e !! k = Some v ∧
                       value_truthy v = false) entries →
     add_education EducationSchema req w =
     ({| status := 400;
         json := Error "Each education object must include degreeName, collegeName, fromYear, and toYear" |},
      w)) ∧
  (Exists (λ e, ∃ k v, k ∈ experience_fields ∧ spread e !! k = Some v ∧
                       value_truthy v = false) entries →
     add_experience ExperienceSchema req w =
     ({| status := 400;
         json := Error "Each Experience object must include Disignation, Company Name and Time." |},
      w)).
Proof.
  intros Huser Harr. split; intros Hfalsy.
  - unfold add_education. rewrite Huser.
    erewrite add_records_rejects; [by destruct w|done|].
    eapply Exists_impl; [exact Hfalsy|]. intros e (k & v & Hk & Hv & Hf).
    eapply falsy_field_incomplete; eauto using education_fields_not_owner.
  - unfold add_experience. rewrite Huser.
    erewrite add_records_rejects; [by destruct w|done|].
    eapply Exists_impl; [exact Hfalsy|]. intros e (k & v & Hk & Hv & Hf).
    eapply falsy_field_incomplete; eauto using experience_fields_not_owner.
Qed.

(** X22. When every entry passes the handler's check but the schema
    refuses one, the answer is 500, nothing is inserted, and the caller's
    earlier entries are already deleted; the other owners' entries stay. *)
Theorem refused_insert_after_delete (req : json_request) (w : world)
    (userId : string) (entries : list value) :
  req_user req = Some userId →
  to_array (req_body req) = Some entries →
  Forall (λ e, complete education_fields (with_user userId e) = true) entries →
  Exists (λ e, EducationSchema (with_user userId e) = None) entries →
  (add_education EducationSchema req w).1 = {| status := 500; json := ServerError |} ∧
  Educations (add_education EducationSchema req w).2 =
    filter (λ d, owned_by userId d = false) (Educations w) ∧
  next_id (add_education EducationSchema req w).2 = next_id w.
Proof.
  intros Huser Harr Hok Hrefused.
  unfold add_education, add_records. rewrite Huser, Harr.
  rewrite forallb_true_Forall by by apply Forall_fmap.
  unfold insertMany. rewrite (mapM_None_2 EducationSchema); [done|].
  by apply Exists_fmap.
Qed.

(** X23. Sending the same valid submission a second time changes nothing
    but the generated identifiers: the fields of the listed documents are
    the same after the second submission as after the first. *)
Theorem resubmission_keeps_listing (req : json_request) (w : world)
    (userId : string) (entries : list value) :
  req_user req = Some userId →
  to_array (req_body req) = Some entries →
  Forall (λ e, complete education_fields (with_user userId e) = true) entries →
  Forall (λ e, EducationSchema (with_user userId e) = Some (with_user userId e))
    entries →
  doc_fields <$>
    Educations
      (add_education EducationSchema req (add_education EducationSchema req w).2).2 =
  doc_fields <$> Educations (add_education EducationSchema req w).2.
Proof.
  intros Huser Harr Hok Hschema.
  set (w1 := (add_education EducationSchema req w).2).
  assert (H1 : ∃ ins, Educations w1 = deleteMany userId (Educations w) ++ ins ∧
                      doc_fields <$> ins = with_user userId <$> entries).
  { subst w1. unfold add_education. rewrite Huser.
    destruct (add_records_accepts EducationSchema education_fields
                "Invalid education data format"
                "Each education object must include degreeName, collegeName, fromYear, and toYear"
                userId (req_body req) entries (Educations w) (next_id w)
                Harr Hok Hschema) as (ins & -> & Hf).
    by exists ins. }
  destruct H1 as (ins1 & HE1 & Hf1).
  unfold add_education at 1. rewrite Huser.
  destruct (add_records_accepts EducationSchema education_fields
              "Invalid education data format"
              "Each education object must include degreeName, collegeName, fromYear, and toYear"
              userId (req_body req) entries (Educations w1) (next_id w1)
              Harr Hok Hschema) as (ins2 & -> & Hf2).
  cbn [snd Educations]. rewrite HE1.
  unfold deleteMany at 1. rewrite filter_app.
  fold (deleteMany userId (deleteMany userId (Educations w))).
  fold (deleteMany userId ins1).
  rewrite deleteMany_idem, (deleteMany_owned userId ins1), app_nil_r
    by by eapply fields_owned.
  by rewrite !fmap_app, Hf1, Hf2.
Qed.

(** X24. The round trip of experience entries: after a valid submission
    that the schema stores as given, the listing is the entries of the
    other owners followed by the submitted entries, each stamped with the
    caller's id, and no earlier entry of the caller is left. *)
Theorem experience_round_trip (req : json_request) (w : world)
    (userId : string) (entries : list value) :
  req_user req = Some userId →
  to_array (req_body req) = Some entries →
  Forall (λ e, complete experience_fields (with_user userId e) = true) entries →
  Forall (λ e, ExperienceSchema (with_user userId e) = Some (with_user userId e))
    entries →
  ∃ inserted,
    (add_experience ExperienceSchema req w).1 =
      {| status := 200; json := Docs inserted |} ∧
    doc_fields <$> inserted = with_user userId <$> entries ∧
    get_experience (add_experience ExperienceSchema req w).2 =
      {| status := 200;
         json := Docs (filter (λ d, owned_by userId d = false) (Experiences w)
                       ++ inserted) |} ∧
    Forall (λ d, owned_by userId d = true) inserted ∧
    (∀ d, d ∈ Experiences (add_experience ExperienceSchema req w).2 →
          owned_by userId d = true → d ∈ inserted).
Proof.
  intros Huser Harr Hok Hschema.
  destruct (add_records_accepts ExperienceSchema experience_fields
              "Invalid Experience data format"
              "Each Experience object must include Disignation, Company Name and Time."
              userId (req_body req) entries (Experiences w) (next_id w)
              Harr Hok Hschema) as (inserted & Hrun & Hfields).
  exists inserted. unfold add_experience, get_experience.
  rewrite Huser, Hrun. cbn [fst snd Experiences].
  split_and!; [done|done|done|by eapply fields_owned|].
  intros d [Hd|Hd]%elem_of_app Hown; [|done].
  apply elem_of_deleteMany in Hd as [Hnot _]. congruence.
Qed.

End RecordEdges.

Lemma empty_submission_clears_entries_witness :
  doc_id <$>
    Educations
      (add_education stores_as_given
         {| req_user := Some "u1"; req_body := VArr [] |} school_world).2 = [1].
Proof.
  destruct (empty_submission_clears_entries stores_as_given stores_as_given
              {| req_user := Some "u1"; req_body := VArr [] |} school_world "u1")
    as [[_ Hleft] _]; [reflexivity|reflexivity|].
  rewrite Hleft. reflexivity.
Defined.

Lemma non_object_entry_refused_witness :
  add_education stores_as_given
    {| req_user := Some "u1"; req_body := VArr [bsc_entry; VStr "BSc"; VNum 7] |}
    school_world =
  ({| status := 400;
      json := Error "Each education object must include degreeName, collegeName, fromYear, and toYear" |},
   school_world).
Proof.
  apply (non_object_entry_refused stores_as_given stores_as_given
           {| req_user := Some "u1";
              req_body := VArr [bsc_entry; VStr "BSc"; VNum 7] |}
           school_world "u1" [bsc_entry; VStr "BSc"; VNum 7]);
    [reflexivity|reflexivity|].
  apply Exists_cons_tl, Exists_cons_hd. reflexivity.
Defined.

Lemma falsy_field_refused_witness :
  add_education stores_as_given
    {| req_user := Some "u1"; req_body := year_zero_entry |} school_world =
  ({| status := 400;
      json := Error "Each education object must include degreeName, collegeName, fromYear, and toYear" |},
   school_world).
Proof.
  apply (falsy_field_refused stores_as_given stores_as_given
           {| req_user := Some "u1"; req_body := year_zero_entry |}
           school_world "u1" [year_zero_entry]);
    [reflexivity|reflexivity|].
  apply Exists_cons_hd. exists "fromYear", (VNum 0).
  split_and!; [by_evaluation|by vm_compute|reflexivity].
Defined.

Lemma refused_insert_after_delete_witness :
  (add_education refuses_all
     {| req_user := Some "u1"; req_body := bsc_entry |} school_world).1 =
    {| status := 500; json := ServerError |} ∧
  doc_id <$>
    Educations
      (add_education refuses_all
         {| req_user := Some "u1"; req_body := bsc_entry |} school_world).2 = [1].
Proof.
  destruct (refused_insert_after_delete refuses_all
              {| req_user := Some "u1"; req_body := bsc_entry |}
              school_world "u1" [bsc_entry]) as (Hres & Hleft & _);
    [reflexivity|reflexivity| | |].
  - constructor; [by vm_compute|constructor].
  - apply Exists_cons_hd. reflexivity.
  - split; [exact Hres|]. rewrite Hleft. reflexivity.
Defined.

Lemma resubmission_keeps_listing_witness :
  let req := {| req_user := Some "u1"; req_body := bsc_entry |} in
  doc_fields <$>
    Educations
      (add_education stores_as_given req
         (add_education stores_as_given req school_world).2).2 =
  doc_fields <$> Educations (add_education stores_as_given req school_world).2.
Proof.
  intros req.
  apply (resubmission_keeps_listing stores_as_given req school_world
           "u1" [bsc_entry]); [reflexivity|reflexivity| |].
  - constructor; [by vm_compute|constructor].
  - constructor; [reflexivity|constructor].
Defined.

Lemma experience_round_trip_witness :
  ∃ inserted,
    get_experience
      (add_experience stores_as_given
         {| req_user := Some "u1"; req_body := job_entry |} school_world).2 =
    {| status := 200; json := Docs inserted |} ∧
    doc_fields <$> inserted = [with_user "u1" job_entry].
Proof.
  destruct (experience_round_trip stores_as_given
              {| req_user := Some "u1"; req_body := job_entry |}
              school_world "u1" [job_entry])
    as (inserted & _ & Hfields & Hlisting & _);
    [reflexivity|reflexivity| | |].
  - constructor; [by vm_compute|constructor].
  - constructor; [reflexivity|constructor].
  - exists inserted. split; [|done]. rewrite Hlisting. reflexivity.
Defined.

Lemma filename_collision_witness :
  filename {| mimetype := "image/png"; originalname := "a  b.png"; now := 5 |} =
  filename {| mimetype := "image/jpeg"; originalname := "a b.png"; now := 5 |}.
Proof.
  apply (filename_collision
           {| mimetype := "image/png"; originalname := "a  b.png"; now := 5 |}
           {| mimetype := "image/jpeg"; originalname := "a b.png"; now := 5 |}).
  split; reflexivity.
Defined.

(** ** A part of another media type than its slot expects *)

Lemma bucket_paths_differ (b1 b2 name : string) :
  b1 ∈ ["images"; "pdfs"; "videos"; "others"] →
  b2 ∈ ["images"; "pdfs"; "videos"; "others"] →
  b1 ≠ b2 →
  ("uploads/" +:+ b1) +:+ "/" +:+ name ≠ ("uploads/" +:+ b2) +:+ "/" +:+ name.
Proof.
  rewrite !elem_of_cons, !elem_of_nil.
  intros [->|[->|[->|[->|[]]]]] [->|[->|[->|[->|[]]]]] Hne; try done;
    intros Heq; cbv [String.append] in Heq; discriminate Heq.
Qed.

Lemma unexpected_type_bucket (s : slot) (f : file) :
  expected s f = false →
  ∃ bucket, bucket ∈ ["images"; "pdfs"; "videos"; "others"] ∧
            destination f = "uploads/" +:+ bucket ∧ bucket ≠ slot_bucket s.
Proof.
  unfold destination. destruct s; simpl; intros Hexp.
  - rewrite Hexp.
    destruct (String.eqb (mimetype f) "application/pdf");
      [exists "pdfs"; split_and!; [set_solver|done|done]|].
    destruct (String.prefix "video/" (mimetype f));
      [exists "videos"|exists "others"]; split_and!; try done; set_solver.
  - rewrite Hexp.
    destruct (String.eqb (mimetype f) "application/pdf");
      [exists "pdfs"; split_and!; [set_solver|done|done]|].
    destruct (String.prefix "video/" (mimetype f));
      [exists "videos"|exists "others"]; split_and!; try done; set_solver.
  - rewrite Hexp.
    destruct (String.prefix "image/" (mimetype f));
      [exists "images"; split_and!; [set_solver|done|done]|].
    destruct (String.prefix "video/" (mimetype f));
      [exists "videos"|exists "others"]; split_and!; try done; set_solver.
  - rewrite Hexp.
    destruct (String.prefix "image/" (mimetype f));
      [exists "images"; split_and!; [set_solver|done|done]|].
    destruct (String.eqb (mimetype f) "application/pdf");
      [exists "pdfs"|exists "others"]; split_and!; try done; set_solver.
Qed.

Lemma slot_prefix_bucket (s : slot) (name : string) :
  slot_prefix s +:+ name = "/" +:+ (("uploads/" +:+ slot_bucket s) +:+ "/" +:+ name).
Proof. by destruct s. Qed.

Lemma slot_bucket_known (s : slot) :
  slot_bucket s ∈ ["images"; "pdfs"; "videos"; "others"].
Proof. destruct s; simpl; set_solver. Qed.

(** X25. A valid update that goes through (each part can be written to
    its bucket and no superseded path is a folder) and sends, into any
    slot, a part of another media type than the slot expects (the original
    name holding no slash): the route answers 200 and the profile is saved
    with a path for the slot that resolves to a place other than the one
    the file was written to, and no file is at that place unless one was
    there before or another part of the request was written there. *)
Theorem mismatched_upload_path_dangles (s : slot) (req : Req.t) (w : world)
    (userId name : string) (f : file) :
  Req.user req = Some userId → userId ≠ "" →
  Req.name req = Some name → name ≠ "" →
  storable req w = true → reclaimable req w userId →
  part s req = Some f → expected s f = false →
  all_chars not_slash (originalname f) = true →
  ∃ p',
    (post_update_profile req w).1 =
      {| status := 200; json := Saved "Profile saved successfully" p' |} ∧
    Profiles (post_update_profile req w).2 !! userId = Some p' ∧
    stored_path s p' = Some (slot_prefix s +:+ filename f) ∧
    normalize (slot_prefix s +:+ filename f) ≠ stored_at f ∧
    stored_at f ∈ written req ∧
    (normalize (slot_prefix s +:+ filename f) ∉ written req →
     normalize (slot_prefix s +:+ filename f) ∉ fs w →
     normalize (slot_prefix s +:+ filename f) ∉ fs (post_update_profile req w).2).
Proof.
  intros Hu Hune Hn Hnne Hst Hr Hpart Hexp Hplain.
  destruct (post_update_profile_ok req w userId name Hu Hune Hn Hnne Hst Hr)
    as (Hres & HP & _ & _ & _ & _ & _ & Hfs).
  exists (saved req userId name (Profiles w !! userId)).
  split_and!.
  - done.
  - rewrite HP. apply lookup_insert_eq.
  - by rewrite stored_path_saved, Hpart.
  - destruct (unexpected_type_bucket s f Hexp) as (bucket & Hbucket & Hdest & Hne).
    destruct (filename_head f) as (c & rest & Hhead & Hdigit).
    assert (Hc : c ≠ "."%char) by by intros ->.
    pose proof (filename_not_slash f Hplain) as Hname.
    rewrite slot_prefix_bucket, normalize_leading_slash.
    rewrite (normalize_in_bucket (slot_bucket s) (filename f) c rest)
      by auto using slot_bucket_known.
    unfold stored_at. rewrite Hdest.
    rewrite (normalize_in_bucket bucket (filename f) c rest) by done.
    apply bucket_paths_differ; auto using slot_bucket_known.
  - unfold written. apply elem_of_list_to_set, list_elem_of_omap.
    exists (part s req). split; [|by rewrite Hpart].
    destruct s; simpl; set_solver.
  - intros Hw Hin. rewrite Hfs. set_solver.
Qed.

Lemma mismatched_upload_path_dangles_witness :
  ∃ p',
    Profiles (post_update_profile video_as_resume ann_world).2 !! "u1" = Some p' ∧
    stored_path Resume p' = Some "/uploads/pdfs/9-talk.mp4" ∧
    normalize "/uploads/pdfs/9-talk.mp4" ∉
      fs (post_update_profile video_as_resume ann_world).2.
Proof.
  destruct (mismatched_upload_path_dangles Resume video_as_resume ann_world
              "u1" "Ann"
              {| mimetype := "video/mp4"; originalname := "talk.mp4"; now := 9 |})
    as (p' & _ & Hp' & Hpath & _ & _ & Hdangles);
    try reflexivity; try discriminate; try reclaimable_by_evaluation.
  exists p'. split_and!; [done|done|].
  apply Hdangles; by_evaluation.
Defined.

(** ** Start-up and the ways the update route fails *)

Lemma ensure_step (folder : string) (w w' : world) :
  folder ∈ folders →
  (if negb (existsSync folder w) then mkdirSync folder w else Some w) = Some w' →
  fs w' = fs w ∧ records w' = records w ∧
  dirs w ⊆ dirs w' ∧
  dirs w' ⊆ {[ "uploads"; folder ]} ∪ dirs w ∧
  (folder ∈ fs w ∨ folder ∈ dirs w').
Proof.
  intros Hfolder. unfold existsSync, is_directory.
  assert (Htrim : trim_slash folder = folder).
  { unfold folders in Hfolder. rewrite !elem_of_cons, elem_of_nil in Hfolder.
    by destruct Hfolder as [->|[->|[->|[]]]]. }
  assert (Hchain : prefixes_from "" (split_slash "" folder) = ["uploads"; folder]).
  { unfold folders in Hfolder. rewrite !elem_of_cons, elem_of_nil in Hfolder.
    by destruct Hfolder as [->|[->|[->|[]]]]. }
  rewrite Htrim. unfold mkdirSync. rewrite Hchain.
  case_bool_decide as Hfile; cbn [orb negb].
  { intros [= <-]. split_and!; [done|done|done|set_solver|by left]. }
  case_bool_decide as Hdir; cbn [negb].
  { intros [= <-]. split_and!; [done|done|done|set_solver|by right]. }
  destruct (existsb _ _); [done|]. intros [= <-]. simpl.
  split_and!; [done|done|set_solver|set_solver|right; set_solver].
Qed.

(** X26. Start-up creates the three buckets the code names and no other
    folder apart from [uploads] itself: when it goes through, each of
    [uploads/images], [uploads/pdfs] and [uploads/videos] is a folder
    unless a regular file bears its name, no file and no record changes,
    no folder is removed, and [uploads/others], the bucket of every other
    media type, is a folder after start-up only if it was one before. On
    an empty disk start-up goes through. *)
Theorem startup_creates_three_buckets (w w' : world) :
  ensure_folders w = Some w' →
  (∀ folder, folder ∈ folders → folder ∈ fs w ∨ folder ∈ dirs w') ∧
  fs w' = fs w ∧ records w' = records w ∧
  dirs w ⊆ dirs w' ∧
  dirs w' ⊆ {[ "uploads"; "uploads/images"; "uploads/pdfs"; "uploads/videos" ]} ∪ dirs w ∧
  ("uploads/others" ∈ dirs w' ↔ "uploads/others" ∈ dirs w).
Proof.
  unfold ensure_folders. cbn [folders fold_left]. cbn [mbind option_bind].
  intros H.
  destruct (if negb (existsSync "uploads/images" w)
            then mkdirSync "uploads/images" w else Some w) as [w1|] eqn:E1;
    [|done].
  cbn [mbind option_bind] in H.
  destruct (if negb (existsSync "uploads/pdfs" w1)
            then mkdirSync "uploads/pdfs" w1 else Some w1) as [w2|] eqn:E2;
    [|done].
  cbn [mbind option_bind] in H.
  apply ensure_step in E1 as (F1 & R1 & S1 & U1 & D1);
    [|unfold folders; set_solver].
  apply ensure_step in E2 as (F2 & R2 & S2 & U2 & D2);
    [|unfold folders; set_solver].
  apply ensure_step in H as (F3 & R3 & S3 & U3 & D3);
    [|unfold folders; set_solver].
  assert (Hin : dirs w' ⊆
    {[ "uploads"; "uploads/images"; "uploads/pdfs"; "uploads/videos" ]} ∪ dirs w).
  { intros x. specialize (U1 x). specialize (U2 x). specialize (U3 x).
    clear -U1 U2 U3. set_unfold. tauto. }
  assert (Hkeep : dirs w ⊆ dirs w') by (intros x Hx; by apply S3, S2, S1).
  split_and!; [|congruence|congruence|done|done|].
  - intros folder. unfold folders. rewrite !elem_of_cons, elem_of_nil.
    intros [->|[->|[->|[]]]].
    + destruct D1 as [D1|D1]; [by left|right]. by apply S3, S2.
    + destruct D2 as [D2|D2]; [left; by rewrite <- F1|right]. by apply S3.
    + destruct D3 as [D3|D3]; [left; by rewrite <- F1, <- F2|by right].
  - split; [|by apply Hkeep]. intros Hothers. apply Hin in Hothers.
    rewrite !elem_of_union, !elem_of_singleton in Hothers.
    by destruct Hothers as [[[[|]|]|]|].
Qed.

Lemma startup_creates_three_buckets_witness :
  ∃ w', ensure_folders bare_world = Some w' ∧
        dirs w' = started_dirs ∧ "uploads/others" ∉ dirs w'.
Proof.
  eexists. split; [reflexivity|].
  destruct (startup_creates_three_buckets bare_world _ eq_refl)
    as (_ & _ & _ & _ & _ & Hothers).
  split; [by_evaluation|].
  intros Hin. apply Hothers in Hin. revert Hin. by_evaluation.
Defined.

Lemma stored_at_plain (f : file) :
  all_chars not_slash (originalname f) = true →
  stored_at f = destination f +:+ "/" +:+ filename f.
Proof.
  intros Hname.
  destruct (destination_bucket f) as (bucket & Hbucket & Hdest).
  destruct (filename_head f) as (c & rest & Hhead & Hdigit).
  unfold stored_at. rewrite Hdest.
  apply (normalize_in_bucket bucket (filename f) c rest); [done|done| |].
  - by intros ->.
  - by apply filename_not_slash.
Qed.

Lemma dirname_stored_at (f : file) :
  all_chars not_slash (originalname f) = true →
  dirname (stored_at f) = destination f.
Proof.
  intros Hname. rewrite stored_at_plain by done.
  pose proof (filename_not_slash f Hname) as Hplain.
  destruct (destination_bucket f) as (bucket & Hbucket & ->).
  unfold dirname.
  rewrite !elem_of_cons, elem_of_nil in Hbucket.
  destruct Hbucket as [->|[->|[->|[->|[]]]]].
  - change (("uploads/" +:+ "images") +:+ "/" +:+ filename f)
      with ("uploads" +:+ String "/" ("images" +:+ String "/" (filename f))).
    rewrite !split_slash_segment, split_slash_plain by done. reflexivity.
  - change (("uploads/" +:+ "pdfs") +:+ "/" +:+ filename f)
      with ("uploads" +:+ String "/" ("pdfs" +:+ String "/" (filename f))).
    rewrite !split_slash_segment, split_slash_plain by done. reflexivity.
  - change (("uploads/" +:+ "videos") +:+ "/" +:+ filename f)
      with ("uploads" +:+ String "/" ("videos" +:+ String "/" (filename f))).
    rewrite !split_slash_segment, split_slash_plain by done. reflexivity.
  - change (("uploads/" +:+ "others") +:+ "/" +:+ filename f)
      with ("uploads" +:+ String "/" ("others" +:+ String "/" (filename f))).
    rewrite !split_slash_segment, split_slash_plain by done. reflexivity.
Qed.

Lemma part_in_parts (s : slot) (req : Req.t) (f : file) :
  part s req = Some f → f ∈ parts req.
Proof.
  intros Hpart. unfold parts. apply list_elem_of_omap.
  exists (part s req). split; [|by rewrite Hpart].
  destruct s; simpl; set_solver.
Qed.

(** X27. A request with a part whose bucket folder is missing is answered
    500 before the handler runs, whatever else it carries: nothing is
    stored, reclaimed or saved. That is the fate of every part that is
    neither an image, a PDF nor a video once start-up has run on a disk
    without [uploads/others]. *)
Theorem upload_to_missing_bucket_fails (s : slot) (req : Req.t) (w : world) (f : file) :
  part s req = Some f →
  all_chars not_slash (originalname f) = true →
  destination f ∉ dirs w →
  post_update_profile req w = (server_error, w).
Proof.
  intros Hpart Hname Hmissing. apply post_update_profile_unstorable.
  apply not_true_is_false. intros Hall. unfold storable in Hall.
  rewrite forallb_forall in Hall.
  specialize (Hall f). rewrite <- list_elem_of_In in Hall.
  specialize (Hall (part_in_parts s req f Hpart)).
  unfold writable in Hall. rewrite dirname_stored_at in Hall by done.
  apply andb_true_iff in Hall as [Hdir _].
  by apply bool_decide_eq_true in Hdir.
Qed.

Lemma upload_to_missing_bucket_fails_witness :
  destination {| mimetype := "application/msword"; originalname := "cv.doc"; now := 4 |}
    = "uploads/others" ∧
  post_update_profile picture_and_doc ann_world = (server_error, ann_world).
Proof.
  split; [reflexivity|].
  apply (upload_to_missing_bucket_fails Resume picture_and_doc ann_world
           {| mimetype := "application/msword"; originalname := "cv.doc"; now := 4 |});
    [reflexivity|reflexivity|by_evaluation].
Defined.



(** X29. The update route answers 200 exactly when the caller is resolved,
    the name is non-empty, every part can be written and no superseded
    path of the caller's profile is a folder; in every other case it
    answers 401, 400 or 500. *)
Theorem update_succeeds_iff (req : Req.t) (w : world) :
  (status (post_update_profile req w).1 = 200 ↔
   ∃ userId name,
     Req.user req = Some userId ∧ userId ≠ "" ∧
     Req.name req = Some name ∧ name ≠ "" ∧
     storable req w = true ∧ reclaimable req w userId) ∧
  status (post_update_profile req w).1 ∈ [200; 400; 401; 500].
Proof.
  destruct (request_cases req w)
    as [Hs|[[Hs Hbad]|(Hs & userId & name & Hu & Hune & Hn & Hnne)]].
  - rewrite post_update_profile_unstorable by done. cbn [fst status server_error].
    split; [split; [done|]|set_solver].
    intros (? & ? & _ & _ & _ & _ & Hst & _). congruence.
  - rewrite post_update_profile_refused by done. cbn [fst].
    split; [split|].
    + by destruct (truthy (Req.user req)).
    + intros (userId & name & Hu & Hune & Hn & Hnne & _).
      assert (truthy (Req.user req) = true)
        by (apply truthy_Some; by exists userId).
      assert (truthy (Req.name req) = true)
        by (apply truthy_Some; by exists name).
      destruct Hbad; congruence.
    + destruct (truthy (Req.user req)); simpl; set_solver.
  - destruct (post_update_profile_valid req w userId name Hu Hune Hn Hnne Hs)
      as (D & _ & _ & _ & _ & _ & _ & [(Hr & _ & Hres & _)|(Hr & Hres & _)]);
      rewrite Hres; cbn [status server_error].
    + split; [split; [intros _|done]|set_solver]. by exists userId, name.
    + split; [split; [done|]|set_solver].
      intros (userId' & name' & Hu' & _ & _ & _ & _ & Hr').
      assert (userId' = userId) as -> by congruence. done.
Qed.
